(** * create_base_dati.py: the Finnhub client, the store orchestrator and
      the SQLite persistence layer, as a shallow embedding.

    Python values coming from the vendor are dynamically typed JSON; the
    operations the source applies to them ([in], [==], [x[k]], [len],
    [int], iteration) are modelled with the exceptions Python raises.
    Effects (HTTP calls, [time.sleep], SQL statements) are threaded through
    an explicit state; the state survives a raised exception, as it does in
    Python. *)

From Stdlib Require Import ZArith Ascii String.
From stdpp Require Import gmap strings list fin_maps.

Set Warnings "-register-all".
Local Open Scope string_scope.
Local Open Scope Z_scope.
Local Open Scope list_scope.

(** ** JSON values as [json.loads] delivers them *)

(** A Python float: a finite binary fraction [m * 2^e], an infinity or NaN
    (the standard decoder accepts the literals Infinity and NaN). *)
Inductive pyfloat :=
| FFinite (m e : Z)
| FInf (negative : bool)
| FNaN.

(** Objects keep their items in insertion order, as Python dicts do; the
    keys of a decoded object are pairwise distinct. *)
Inductive json :=
| JNull
| JBool (b : bool)
| JInt (n : Z)
| JFloat (f : pyfloat)
| JStr (s : string)
| JArr (items : list json)
| JObj (fields : list (string * json)).

(** A row handed to [executemany] is a Python tuple of such values. *)
Definition row := list json.

(** ** Exceptions and results *)

Inductive exn :=
| FinnhubAPIException (status_code : Z) (message : json)
| FinnhubRequestException (message : string)
| TypeError
| KeyError (key : json)
| IndexError
| ValueError
| OverflowError
| TransportError (what : string)
| SqliteError (what : string).

Inductive result (A : Type) :=
| Ok (a : A)
| Raise (e : exn).
Arguments Ok {A} a.
Arguments Raise {A} e.

Definition result_bind {A B} (f : A → result B) (r : result A) : result B :=
  match r with
  | Ok a => f a
  | Raise e => Raise e
  end.

#[global] Instance result_ret : MRet result := @Ok.
#[global] Instance result_mbind : MBind result := @result_bind.

Definition is_Ok {A} (r : result A) : bool :=
  match r with Ok _ => true | Raise _ => false end.

(** ** Strings *)

(** [needle in hay] on two Python strings. *)
Fixpoint contains (needle hay : string) : bool :=
  if String.prefix needle hay then true
  else match hay with
       | EmptyString => false
       | String _ rest => contains needle rest
       end.

Definition ascii_lower (c : ascii) : ascii :=
  let n := nat_of_ascii c in
  if ((65 <=? n) && (n <=? 90))%nat then ascii_of_nat (n + 32) else c.

Fixpoint lower (s : string) : string :=
  match s with
  | EmptyString => EmptyString
  | String c rest => String (ascii_lower c) (lower rest)
  end.

Fixpoint chars (s : string) : list json :=
  match s with
  | EmptyString => []
  | String c rest => JStr (String c EmptyString) :: chars rest
  end.

(** ** The dynamic operations the source applies to decoded JSON *)

Fixpoint assoc (k : string) (fields : list (string * json)) : option json :=
  match fields with
  | [] => None
  | (k', v) :: rest => if bool_decide (k' = k) then Some v else assoc k rest
  end.

(** [v == s] for a Python string [s]: only an equal string compares equal. *)
Definition py_eq_str (v : json) (s : string) : bool :=
  match v with
  | JStr s' => bool_decide (s' = s)
  | _ => false
  end.

(** [v == {}]: only the empty dict compares equal to the empty dict. *)
Definition py_eq_empty_dict (v : json) : bool :=
  match v with
  | JObj [] => true
  | _ => false
  end.

(** [s in v] for a Python string [s]: key membership on a dict, element
    membership on a list, substring on a string, [TypeError] otherwise. *)
Definition py_in (s : string) (v : json) : result bool :=
  match v with
  | JObj fields => Ok (bool_decide (is_Some (assoc s fields)))
  | JArr items => Ok (existsb (λ x, py_eq_str x s) items)
  | JStr hay => Ok (contains s hay)
  | _ => Raise TypeError
  end.

(** [v[k]] for a string key [k]. *)
Definition py_getitem (v : json) (k : string) : result json :=
  match v with
  | JObj fields =>
      match assoc k fields with
      | Some x => Ok x
      | None => Raise (KeyError (JStr k))
      end
  | _ => Raise TypeError
  end.

(** [v[k]] for a non-negative integer [k], as produced by [range]. *)
Definition py_index (v : json) (k : nat) : result json :=
  match v with
  | JArr items =>
      match items !! k with
      | Some x => Ok x
      | None => Raise IndexError
      end
  | JStr s =>
      match String.get k s with
      | Some c => Ok (JStr (String c EmptyString))
      | None => Raise IndexError
      end
  | JObj _ => Raise (KeyError (JInt (Z.of_nat k)))
  | _ => Raise TypeError
  end.

Definition py_len (v : json) : result nat :=
  match v with
  | JArr items => Ok (length items)
  | JStr s => Ok (String.length s)
  | JObj fields => Ok (length fields)
  | _ => Raise TypeError
  end.

(** The items a [for] loop over [v] visits. *)
Definition py_iter (v : json) : result (list json) :=
  match v with
  | JArr items => Ok items
  | JStr s => Ok (chars s)
  | JObj fields => Ok ((λ kv, JStr kv.1) <$> fields)
  | _ => Raise TypeError
  end.

(** [int(f)] on a float truncates toward zero. *)
Definition int_of_float (f : pyfloat) : result Z :=
  match f with
  | FFinite m e => Ok (if 0 <=? e then m * 2 ^ e else Z.quot m (2 ^ (- e)))
  | FInf _ => Raise OverflowError
  | FNaN => Raise ValueError
  end.

(** ** HTTP responses *)

(** What the client reads of a [requests.Response]: [json_body] is the
    outcome of [response.json()], [None] when decoding raises (the decoder's
    error is a [ValueError]). *)
Record response := {
  status_code : Z;
  headers : list (string * string);
  text : string;
  json_body : option json
}.

(** [Response.ok]: false exactly for the client and server error codes. *)
Definition ok (r : response) : bool :=
  negb ((400 <=? status_code r) && (status_code r <? 600)).

(** A JSON string literal without escapes: the text between two quotes. *)
Definition quoted (s : string) : string :=
  String (ascii_of_nat 34) (s +:+ String (ascii_of_nat 34) EmptyString).

Definition response_json (r : response) : result json :=
  match json_body r with
  | Some v => Ok v
  | None => Raise ValueError
  end.

(** [headers.get(key, default)]; header names compare case-insensitively. *)
Fixpoint headers_get (key default : string) (h : list (string * string)) : string :=
  match h with
  | [] => default
  | (k, v) :: rest =>
      if bool_decide (lower k = lower key) then v else headers_get key default rest
  end.

(** Construction of [FinnhubAPIException(response)]; the constructor itself
    can raise. *)
Definition FinnhubAPIException_new (r : response) : result exn :=
  match response_json r with
  | Raise ValueError =>
      Ok (FinnhubAPIException (status_code r)
            (JStr ("JSON error message from Finnhub: " +:+ text r)))
  | Raise e => Raise e
  | Ok json_response =>
      present ← py_in "error" json_response;
      if negb present then
        Ok (FinnhubAPIException (status_code r) (JStr "Wrong json format from FinnhubAPI"))
      else
        message ← py_getitem json_response "error";
        Ok (FinnhubAPIException (status_code r) message)
  end.

Definition invalid_response (r : response) : exn :=
  FinnhubRequestException ("Invalid Response: " +:+ text r).

Definition _handle_response (r : response) : result json :=
  if negb (ok r) then
    e ← FinnhubAPIException_new r; Raise e
  else
    let content_type := headers_get "Content-Type" "" (headers r) in
    if contains "application/json" content_type then
      match response_json r with
      | Raise ValueError => Raise (invalid_response r)
      | other => other
      end
    else if contains "text/csv" content_type then Ok (JStr (text r))
    else if contains "text/plain" content_type then Ok (JStr (text r))
    else Raise (invalid_response r).

(** ** The environment of a run *)

(** A database as one connection sees it: the rows of each existing table
    by table name (the surrogate [id] column is the position), the last
    committed contents, and whether a transaction is open. *)
Record database := {
  live : gmap string (list row);
  committed : gmap string (list row);
  in_transaction : bool
}.

(** What the program takes from outside its own source. First the HTTP
    session: a call may raise, and answers may change from call to call. *)
Class Network := {
  world : Type;
  (** [getattr(session, method)(uri, params=..., timeout=...)] *)
  session_call : string → string → gmap string json → Z → world → result response * world
}.

(** Then the built-ins whose results depend on the platform. *)
Class Platform := {
  (** [int(s)] on a string *)
  int_of_str : string → result Z;
  (** [str(v)] for a value that is not a string *)
  py_repr : json → string;
  (** [time.strftime("%Y-%m-%d", time.localtime(n))] *)
  strftime_localtime : Z → result string;
  (** [int(time.mktime(datetime.strptime(d, "%d/%m/%Y").timetuple()))] *)
  mktime_strptime : string → result Z
}.

Inductive event :=
| EvRequest (method uri : string) (query : gmap string json) (timeout : Z)
| EvSleep (seconds : Z).

Section Program.
Context `{NW : Network} `{PF : Platform}.

Record state := {
  net : world;
  trace : list event;
  db : database
}.

Definition log (ev : event) (s : state) : state :=
  {| net := net s; trace := trace s ++ [ev]; db := db s |}.

Definition with_net (w : world) (s : state) : state :=
  {| net := w; trace := trace s; db := db s |}.

Definition with_db (d : database) (s : state) : state :=
  {| net := net s; trace := trace s; db := d |}.

(** Computations: a result and the state left behind, also when raising. *)
Definition M (A : Type) : Type := state → result A * state.

Definition M_ret {A} (a : A) : M A := λ s, (Ok a, s).

Definition M_bind {A B} (f : A → M B) (m : M A) : M B :=
  λ s, match m s with
       | (Ok a, s') => f a s'
       | (Raise e, s') => (Raise e, s')
       end.

#[global] Instance M_mret : MRet M := @M_ret.
#[global] Instance M_mbind : MBind M := @M_bind.

Definition liftR {A} (r : result A) : M A := λ s, (r, s).

(** [try: body  except: handler] with a bare [except]. *)
Definition try_except {A} (body : M A) (handler : M A) : M A :=
  λ s, match body s with
       | (Ok a, s') => (Ok a, s')
       | (Raise _, s') => handler s'
       end.

(** A [for] loop that updates an accumulator; an exception leaves it. *)
Fixpoint for_each {A B} (body : B → A → M B) (items : list A) (acc : B) : M B :=
  match items with
  | [] => mret acc
  | x :: rest => acc' ← body acc x; for_each body rest acc'
  end.

Definition sleep (seconds : Z) : M unit := λ s, (Ok (), log (EvSleep seconds) s).

Definition py_int (v : json) : result Z :=
  match v with
  | JInt n => Ok n
  | JBool b => Ok (if b then 1 else 0)
  | JFloat f => int_of_float f
  | JStr s => int_of_str s
  | _ => Raise TypeError
  end.

(** The text an f-string inserts for [v]. *)
Definition py_str (v : json) : string :=
  match v with
  | JStr s => s
  | other => py_repr other
  end.

(** ** class Finnhub: the HTTP client *)

Definition API_URL : string := "https://finnhub.io/api/v1".
Definition DEFAULT_TIMEOUT : Z := 120.

Definition _merge_two_dicts (first second : gmap string json) : gmap string json :=
  second ∪ first.

Definition format_value (v : json) : json :=
  match v with
  | JBool true => JStr "true"
  | JBool false => JStr "false"
  | other => other
  end.

Definition _format_params (params : gmap string json) : gmap string json :=
  format_value <$> params.

Definition _request (method path : string) (params : gmap string json) : M json :=
  λ s,
    let uri := API_URL +:+ "/" +:+ path in
    let timeout := DEFAULT_TIMEOUT in
    let query := _format_params params in
    let '(r, w) := session_call method uri query timeout (net s) in
    (r ≫= _handle_response, with_net w (log (EvRequest method uri query timeout) s)).

Definition _get (path : string) (params : gmap string json) : M json :=
  _request "get" path params.

Definition stock_candles (symbol resolution _from to : json) (kwargs : gmap string json) : M json :=
  _get "/stock/candle"
    (_merge_two_dicts
       {[ "symbol" := symbol; "resolution" := resolution; "from" := _from; "to" := to ]}
       kwargs).

Definition index_constituents (symbol : json) (kwargs : gmap string json) : M json :=
  _get "/index/constituents" (_merge_two_dicts {[ "symbol" := symbol ]} kwargs).

Definition stock_profile (symbol : json) (kwargs : gmap string json) : M json :=
  _get "/stock/profile2" (_merge_two_dicts {[ "symbol" := symbol ]} kwargs).

Definition forex_exchanges (kwargs : gmap string json) : M json :=
  _get "/forex/exchange" (_merge_two_dicts {[ "symbol" := JStr "symbol" ]} kwargs).

Definition fx_symbols (exchange : json) (kwargs : gmap string json) : M json :=
  _get "/forex/symbol" (_merge_two_dicts {[ "exchange" := exchange ]} kwargs).

Definition fx_candles (symbol resolution _from to : json) (kwargs : gmap string json) : M json :=
  _get "/forex/candle"
    (_merge_two_dicts
       {[ "symbol" := symbol; "resolution" := resolution; "from" := _from; "to" := to ]}
       kwargs).

(** *** Calling a method: how Python binds the arguments of a call

    For [def f(self, p1, ..., pn, **kwargs)] called on the client, as
    [client.f(a1, ..., am, k1=v1, ...)], with positional values [args] and
    keyword arguments [kws]: the client fills the first declared name,
    [self]; the positional values fill the names after it in order; a
    keyword naming a declared parameter binds it, unless it is already
    filled (TypeError: multiple values, which is always so for [self]);
    only keywords that name no declared parameter reach [kwargs]. The
    result holds the values bound to the parameters after [self]. *)
Definition bind_arguments (names : list string) (args : list json) (kws : gmap string json)
  : result (gmap string json * gmap string json) :=
  match names with
  | [] => Raise TypeError
  | self :: names =>
      if (length names <? length args)%nat then Raise TypeError
      else
        let filled := take (length args) names in
        if existsb (λ k, bool_decide (is_Some (kws !! k))) (self :: filled)
        then Raise TypeError
        else
          let by_keyword := filter (λ k, bool_decide (is_Some (kws !! k))) names in
          let bound : gmap string json :=
            list_to_map (zip filled args)
            ∪ list_to_map (omap (λ k, pair k <$> kws !! k) by_keyword) in
          Ok (bound, foldr delete kws (self :: names))
  end.

(** The value of a declared parameter; an unfilled one is a TypeError. *)
Definition argument (bound : gmap string json) (name : string) : result json :=
  match bound !! name with
  | Some v => Ok v
  | None => Raise TypeError
  end.

Inductive operation :=
| StockCandles
| IndexConstituents
| StockProfile
| ForexExchanges
| FxSymbols
| FxCandles.

(** The parameters each method declares between [self] and [**kwargs]. *)
Definition parameters (op : operation) : list string :=
  match op with
  | StockCandles | FxCandles => ["symbol"; "resolution"; "_from"; "to"]
  | IndexConstituents | StockProfile => ["symbol"]
  | ForexExchanges => []
  | FxSymbols => ["exchange"]
  end.

(** The parameters each method declares before [**kwargs]: [self] first. *)
Definition declared (op : operation) : list string := "self" :: parameters op.

(** The query fields each method puts in the request on its own. *)
Definition required_fields (op : operation) : list string :=
  match op with
  | StockCandles | FxCandles => ["symbol"; "resolution"; "from"; "to"]
  | IndexConstituents | StockProfile | ForexExchanges => ["symbol"]
  | FxSymbols => ["exchange"]
  end.

(** The call of a query method on the client, with positional values
    [args] and keyword arguments [kws]. *)
Definition call (op : operation) (args : list json) (kws : gmap string json) : M json :=
  '(bound, kwargs) ← liftR (bind_arguments (declared op) args kws);
  match op with
  | StockCandles =>
      symbol ← liftR (argument bound "symbol");
      resolution ← liftR (argument bound "resolution");
      _from ← liftR (argument bound "_from");
      to ← liftR (argument bound "to");
      stock_candles symbol resolution _from to kwargs
  | IndexConstituents =>
      symbol ← liftR (argument bound "symbol");
      index_constituents symbol kwargs
  | StockProfile =>
      symbol ← liftR (argument bound "symbol");
      stock_profile symbol kwargs
  | ForexExchanges => forex_exchanges kwargs
  | FxSymbols =>
      exchange ← liftR (argument bound "exchange");
      fx_symbols exchange kwargs
  | FxCandles =>
      symbol ← liftR (argument bound "symbol");
      resolution ← liftR (argument bound "resolution");
      _from ← liftR (argument bound "_from");
      to ← liftR (argument bound "to");
      fx_candles symbol resolution _from to kwargs
  end.

(** ** class FinnhubDB: the persistence layer *)

Definition modify_db (f : database → result database) : M unit :=
  λ s, match f (db s) with
       | Ok d => (Ok (), with_db d s)
       | Raise e => (Raise e, s)
       end.

(** [CREATE TABLE IF NOT EXISTS t (...)]: no effect on an existing table;
    outside a transaction the new table is durable at once. *)
Definition sql_create_table_if_not_exists (t : string) (d : database) : result database :=
  match live d !! t with
  | Some _ => Ok d
  | None =>
      Ok {| live := <[t := []]> (live d);
            committed := if in_transaction d then committed d else <[t := []]> (committed d);
            in_transaction := in_transaction d |}
  end.

(** [delete from t]: opens a transaction if none is open. *)
Definition sql_delete_from (t : string) (d : database) : result database :=
  match live d !! t with
  | Some _ =>
      Ok {| live := <[t := []]> (live d); committed := committed d; in_transaction := true |}
  | None => Raise (SqliteError "no such table")
  end.

Definition sql_commit (d : database) : result database :=
  Ok {| live := live d; committed := live d; in_transaction := false |}.

(** The values the driver can bind to a [?]. *)
Definition sql_bindable (v : json) : bool :=
  match v with
  | JArr _ | JObj _ => false
  | JInt n => (- 2 ^ 63 <=? n) && (n <? 2 ^ 63)
  | _ => true
  end.

(** One [INSERT INTO t (...) VALUES (?, ..., ?)] with [arity] placeholders. *)
Definition sql_insert (t : string) (arity : nat) (r : row) (d : database) : result database :=
  match live d !! t with
  | None => Raise (SqliteError "no such table")
  | Some rows =>
      if negb (length r =? arity)%nat then
        Raise (SqliteError "Incorrect number of bindings supplied")
      else if negb (forallb sql_bindable r) then
        Raise (SqliteError "Error binding parameter")
      else
        Ok {| live := <[t := rows ++ [r]]> (live d);
              committed := committed d;
              in_transaction := true |}
  end.

Definition executemany (t : string) (arity : nat) (rows : list row) : M unit :=
  λ s, match live (db s) !! t with
       | None => (Raise (SqliteError "no such table"), s)
       | Some _ => for_each (λ _ r, modify_db (sql_insert t arity r)) rows () s
       end.

Definition create_tables : M unit :=
  _ ← modify_db (sql_create_table_if_not_exists "anagraphic_table");
  _ ← modify_db (sql_create_table_if_not_exists "stock_historical_data");
  _ ← modify_db (sql_create_table_if_not_exists "fxanagraphic_data");
  _ ← modify_db (sql_create_table_if_not_exists "fxhistorical_data");
  _ ← modify_db (sql_delete_from "anagraphic_table");
  _ ← modify_db (sql_delete_from "stock_historical_data");
  _ ← modify_db (sql_delete_from "fxanagraphic_data");
  _ ← modify_db (sql_delete_from "fxhistorical_data");
  modify_db sql_commit.

Definition insert_stock_anagraphic (stockprofile : list row) : M unit :=
  _ ← executemany "anagraphic_table" 12 stockprofile;
  modify_db sql_commit.

Definition insert_stock_prices (prices : list row) : M unit :=
  _ ← executemany "stock_historical_data" 7 prices;
  modify_db sql_commit.

Definition insert_fxanagraphic_data (fxdata : list row) : M unit :=
  _ ← executemany "fxanagraphic_data" 3 fxdata;
  modify_db sql_commit.

Definition insert_historical_data (fxhistorical_data : list row) : M unit :=
  _ ← executemany "fxhistorical_data" 6 fxhistorical_data;
  modify_db sql_commit.

(** ** Finnhub.store_data: the four phases *)

Definition profile_fields : list string :=
  ["country"; "currency"; "exchange"; "finnhubIndustry"; "ipo"; "logo";
   "marketCapitalization"; "name"; "phone"; "shareOutstanding"; "ticker"; "weburl"].

(** The tuple [(sp['country'], ..., sp['weburl'])], built left to right. *)
Definition profile_row (sp : json) : result row :=
  mapM (py_getitem sp) profile_fields.

(** The body shared by the [try] block and the [except] block of Phase 1. *)
Definition store_profile (i : json) (stockprofile : list row) : M (list row) :=
  sp ← stock_profile i ∅;
  if py_eq_empty_dict sp then mret stockprofile
  else r ← liftR (profile_row sp); mret (stockprofile ++ [r]).

Definition phase1_step (stockprofile : list row) (i : json) : M (list row) :=
  try_except (store_profile i stockprofile)
             (_ ← sleep 80; store_profile i stockprofile).

(** [stock[key][k]] *)
Definition cell (stock : json) (key : string) (k : nat) : result json :=
  column ← py_getitem stock key; py_index column k.

(** [time.strftime("%Y-%m-%d", time.localtime(int(t)))] *)
Definition time_label (t : json) : result string :=
  n ← py_int t; strftime_localtime n.

Definition price_row (i stock : json) (k : nat) : result row :=
  c ← cell stock "c" k;
  h ← cell stock "h" k;
  l ← cell stock "l" k;
  o ← cell stock "o" k;
  t ← cell stock "t" k;
  d ← time_label t;
  v ← cell stock "v" k;
  mret [i; c; h; l; o; JStr d; v].

(** The rows the loop [for k in range(0, len(stock['c']))] appends. *)
Definition price_rows (i stock : json) : result (list row) :=
  c ← py_getitem stock "c";
  n ← py_len c;
  mapM (price_row i stock) (seq 0 n).

(** The call in the [try] block of Phase 2, repeated in its [except] block;
    the two dates are converted as part of the call's arguments. *)
Definition fetch_stock_candles (from_date to_date : string) (i : json) : M json :=
  a ← liftR (mktime_strptime from_date);
  b ← liftR (mktime_strptime to_date);
  stock_candles i (JStr "D") (JInt a) (JInt b) ∅.

(** The [try]/[except] statement of Phase 2, which yields [stock]. *)
Definition stock_candles_with_retry (from_date to_date : string) (i : json) : M json :=
  try_except (fetch_stock_candles from_date to_date i)
             (_ ← sleep 80; fetch_stock_candles from_date to_date i).

Definition phase2_step (from_date to_date : string) (prices : list row) (i : json)
  : M (list row) :=
  stock ← stock_candles_with_retry from_date to_date i;
  rows ← liftR (price_rows i stock);
  mret (prices ++ rows).

(** An FX anagraphic tuple [(description, displaySymbol, symbol)]. *)
Record fx_entry := {
  fx_description : json;
  fx_displaySymbol : json;
  fx_symbol : json
}.

Definition fx_entry_row (j : fx_entry) : row :=
  [fx_description j; fx_displaySymbol j; fx_symbol j].

Definition fx_entry_of (fx : json) : result fx_entry :=
  d ← py_getitem fx "description";
  ds ← py_getitem fx "displaySymbol";
  sy ← py_getitem fx "symbol";
  mret {| fx_description := d; fx_displaySymbol := ds; fx_symbol := sy |}.

Definition phase3_exchange (fxanagraphic_data : list fx_entry) (exch : json)
  : M (list fx_entry) :=
  currencies ← fx_symbols exch ∅;
  items ← liftR (py_iter currencies);
  entries ← liftR (mapM fx_entry_of items);
  mret (fxanagraphic_data ++ entries).

Definition phase3 : M (list fx_entry) :=
  exchanges ← forex_exchanges ∅;
  items ← liftR (py_iter exchanges);
  for_each phase3_exchange items [].

(** The test [j[1] == f and 'FOREX' in j[2]]. *)
Definition fx_matches (f : string) (j : fx_entry) : result bool :=
  if py_eq_str (fx_displaySymbol j) f then py_in "FOREX" (fx_symbol j) else Ok false.

Definition fx_price_row (f : string) (historical_fx_data : json) (k : nat) : result row :=
  c ← cell historical_fx_data "c" k;
  h ← cell historical_fx_data "h" k;
  l ← cell historical_fx_data "l" k;
  o ← cell historical_fx_data "o" k;
  t ← cell historical_fx_data "t" k;
  d ← time_label t;
  mret [JStr f; c; h; l; o; JStr d].

Definition fx_price_rows (f : string) (historical_fx_data : json) : result (list row) :=
  c ← py_getitem historical_fx_data "c";
  n ← py_len c;
  mapM (fx_price_row f historical_fx_data) (seq 0 n).

Definition phase4_entry (from_date_ux to_date_ux : Z) (f : string)
    (fxprices : list row) (j : fx_entry) : M (list row) :=
  hit ← liftR (fx_matches f j);
  if hit : bool then
    historical_fx_data ←
      fx_candles (JStr (py_str (fx_symbol j))) (JStr "D")
                 (JInt from_date_ux) (JInt to_date_ux) ∅;
    rows ← liftR (fx_price_rows f historical_fx_data);
    mret (fxprices ++ rows)
  else mret fxprices.

Definition phase4_pair (from_date_ux to_date_ux : Z) (fxanagraphic_data : list fx_entry)
    (fxprices : list row) (f : string) : M (list row) :=
  for_each (phase4_entry from_date_ux to_date_ux f) fxanagraphic_data fxprices.

Definition phase4 (from_date_ux to_date_ux : Z) (fxcurr : list string)
    (fxanagraphic_data : list fx_entry) : M (list row) :=
  for_each (phase4_pair from_date_ux to_date_ux fxanagraphic_data) fxcurr [].

Definition constituents (indx_const : json) : result (list json) :=
  c ← py_getitem indx_const "constituents"; py_iter c.

Definition phase1 (indx_const : json) : M (list row) :=
  items ← liftR (constituents indx_const);
  for_each phase1_step items [].

Definition phase2 (from_date to_date : string) (indx_const : json) : M (list row) :=
  items ← liftR (constituents indx_const);
  for_each (phase2_step from_date to_date) items [].

(** The run. The elapsed time printed at the end is left out. *)
Definition store_data (stockmarket : string) (fxcurr : list string)
    (from_date to_date : string) : M unit :=
  from_date_ux ← liftR (mktime_strptime from_date);
  to_date_ux ← liftR (mktime_strptime to_date);
  indx_const ← index_constituents (JStr ("^" +:+ stockmarket)) ∅;
  stockprofile ← phase1 indx_const;
  _ ← insert_stock_anagraphic stockprofile;
  prices ← phase2 from_date to_date indx_const;
  _ ← insert_stock_prices prices;
  fxanagraphic_data ← phase3;
  _ ← insert_fxanagraphic_data (fx_entry_row <$> fxanagraphic_data);
  fxprices ← phase4 from_date_ux to_date_ux fxcurr fxanagraphic_data;
  insert_historical_data fxprices.

(** ** Vocabulary for statements about a run *)

Definition endpoint (op : operation) : string :=
  match op with
  | StockCandles => "/stock/candle"
  | IndexConstituents => "/index/constituents"
  | StockProfile => "/stock/profile2"
  | ForexExchanges => "/forex/exchange"
  | FxSymbols => "/forex/symbol"
  | FxCandles => "/forex/candle"
  end.

Definition table_names : list string :=
  ["anagraphic_table"; "stock_historical_data"; "fxanagraphic_data"; "fxhistorical_data"].

(** The run up to the start of Phase 1: the two dates and the index. *)
Definition prelude (stockmarket from_date to_date : string) : M (Z * Z * json) :=
  from_date_ux ← liftR (mktime_strptime from_date);
  to_date_ux ← liftR (mktime_strptime to_date);
  indx_const ← index_constituents (JStr ("^" +:+ stockmarket)) ∅;
  mret (from_date_ux, to_date_ux, indx_const).

(** The run up to the start of Phase 2. *)
Definition through_phase1 (stockmarket from_date to_date : string) : M (Z * Z * json) :=
  '(from_date_ux, to_date_ux, indx_const) ← prelude stockmarket from_date to_date;
  stockprofile ← phase1 indx_const;
  _ ← insert_stock_anagraphic stockprofile;
  mret (from_date_ux, to_date_ux, indx_const).

(** The run up to the start of Phase 3. *)
Definition through_phase2 (stockmarket from_date to_date : string) : M (Z * Z) :=
  '(from_date_ux, to_date_ux, indx_const) ← through_phase1 stockmarket from_date to_date;
  prices ← phase2 from_date to_date indx_const;
  _ ← insert_stock_prices prices;
  mret (from_date_ux, to_date_ux).


(** The rest of the run from the start of each phase. *)
Definition from_phase4 (a b : Z) (fxcurr : list string) (fxanagraphic_data : list fx_entry)
  : M unit :=
  fxprices ← phase4 a b fxcurr fxanagraphic_data;
  insert_historical_data fxprices.

Definition from_phase3 (a b : Z) (fxcurr : list string) : M unit :=
  fxanagraphic_data ← phase3;
  _ ← insert_fxanagraphic_data (fx_entry_row <$> fxanagraphic_data);
  from_phase4 a b fxcurr fxanagraphic_data.

Definition from_phase2 (from_date to_date : string) (a b : Z) (fxcurr : list string)
    (indx_const : json) : M unit :=
  prices ← phase2 from_date to_date indx_const;
  _ ← insert_stock_prices prices;
  from_phase3 a b fxcurr.

Definition from_phase1 (from_date to_date : string) (a b : Z) (fxcurr : list string)
    (indx_const : json) : M unit :=
  stockprofile ← phase1 indx_const;
  _ ← insert_stock_anagraphic stockprofile;
  from_phase2 from_date to_date a b fxcurr indx_const.

(** The run is about to handle constituent [i] in Phase 1, with the rows
    [stockprofile] collected so far, in state [s]. *)
Definition phase1_reaches (stockmarket from_date to_date : string) (s0 : state)
    (i : json) (stockprofile : list row) (s : state) : Prop :=
  ∃ a b indx_const sA before after,
    prelude stockmarket from_date to_date s0 = (Ok (a, b, indx_const), sA)
    ∧ constituents indx_const = Ok (before ++ i :: after)
    ∧ for_each phase1_step before [] sA = (Ok stockprofile, s).

(** The same for Phase 2; [a] and [b] are the converted dates. *)
Definition phase2_reaches (stockmarket from_date to_date : string) (s0 : state)
    (a b : Z) (i : json) (prices : list row) (s : state) : Prop :=
  ∃ indx_const sB before after,
    through_phase1 stockmarket from_date to_date s0 = (Ok (a, b, indx_const), sB)
    ∧ constituents indx_const = Ok (before ++ i :: after)
    ∧ for_each (phase2_step from_date to_date) before [] sB = (Ok prices, s).

(** The run is about to start Phase 3 in state [s]. *)
Definition phase3_reaches (stockmarket from_date to_date : string) (s0 s : state) : Prop :=
  ∃ a b, through_phase2 stockmarket from_date to_date s0 = (Ok (a, b), s).


(** The requests of the two retried fetches. *)
Definition profile_request (i : json) : event :=
  EvRequest "get" (API_URL +:+ "/" +:+ "/stock/profile2")
    (_format_params {[ "symbol" := i ]}) DEFAULT_TIMEOUT.

Definition forex_exchanges_request : event :=
  EvRequest "get" (API_URL +:+ "/" +:+ "/forex/exchange")
    (_format_params {[ "symbol" := JStr "symbol" ]}) DEFAULT_TIMEOUT.

Definition fx_symbols_request (exch : json) : event :=
  EvRequest "get" (API_URL +:+ "/" +:+ "/forex/symbol")
    (_format_params {[ "exchange" := exch ]}) DEFAULT_TIMEOUT.

Definition candles_request (path : string) (symbol : json) (a b : Z) : event :=
  EvRequest "get" (API_URL +:+ "/" +:+ path)
    (_format_params
       {[ "symbol" := symbol; "resolution" := JStr "D"; "from" := JInt a; "to" := JInt b ]})
    DEFAULT_TIMEOUT.

(** ** Vocabulary for what a computation changes *)

(** Every run of the computation, whatever its outcome, takes a state to a
    state related to it by [R]. *)
Definition preserves {A} (R : relation state) (m : M A) : Prop :=
  ∀ s, R s (m s).2.

(** The trace has grown by events that all satisfy [allowed]. *)
Definition extends_by (allowed : event → Prop) : relation state :=
  λ s s', ∃ evs, trace s' = trace s ++ evs ∧ Forall allowed evs.

(** The database is the same. *)
Definition same_db : relation state := λ s s', db s' = db s.

(** The network and the trace are the same: nothing was sent or slept. *)
Definition same_session : relation state :=
  λ s s', net s' = net s ∧ trace s' = trace s.

(** A GET request to the vendor with the default timeout and a query that
    holds no Python boolean. *)
Definition is_get (ev : event) : Prop :=
  ∃ path (query : gmap string json),
    ev = EvRequest "get" (API_URL +:+ "/" +:+ path) query DEFAULT_TIMEOUT
    ∧ ∀ k b, query !! k ≠ Some (JBool b).

Definition is_get_or_sleep (ev : event) : Prop := is_get ev ∨ ev = EvSleep 80.

(** The four tables emptied, whether they existed or not. *)
Definition emptied (tables : gmap string (list row)) : gmap string (list row) :=
  foldr (λ t m, <[t := []]> m) tables table_names.

(** A row the driver accepts for a statement with [arity] placeholders. *)
Definition insertable (arity : nat) (r : row) : Prop :=
  length r = arity ∧ forallb sql_bindable r = true.

End Program.

(** ** A scripted platform

    A concrete network and platform on which the program runs by computation: the
    network answers from a script, one entry per call, and the clock is
    UTC. *)
Module Scripted.

Definition script := list (result response).

Definition scripted_call (method uri : string) (query : gmap string json) (timeout : Z)
    (w : script) : result response * script :=
  match w with
  | [] => (Raise (TransportError "connection refused"), [])
  | answer :: rest => (answer, rest)
  end.

Definition digit (n : Z) : ascii := ascii_of_nat (48 + Z.to_nat n).

Definition two_digits (n : Z) : string :=
  String (digit (n / 10)) (String (digit (n mod 10)) EmptyString).

(** The civil date of a day number counted from 1970-01-01. *)
Definition civil_from_days (days : Z) : Z * Z * Z :=
  let z := days + 719468 in
  let era := z / 146097 in
  let doe := z - era * 146097 in
  let yoe := (doe - doe / 1460 + doe / 36524 - doe / 146096) / 365 in
  let doy := doe - (365 * yoe + yoe / 4 - yoe / 100) in
  let mp := (5 * doy + 2) / 153 in
  let d := doy - (153 * mp + 2) / 5 + 1 in
  let m := if mp <? 10 then mp + 3 else mp - 9 in
  let y := yoe + era * 400 + (if m <=? 2 then 1 else 0) in
  (y, m, d).

Definition days_from_civil (y m d : Z) : Z :=
  let y' := if m <=? 2 then y - 1 else y in
  let era := y' / 400 in
  let yoe := y' - era * 400 in
  let doy := (153 * (if 2 <? m then m - 3 else m + 9) + 2) / 5 + d - 1 in
  let doe := yoe * 365 + yoe / 4 - yoe / 100 + doy in
  era * 146097 + doe - 719468.

Definition utc_strftime (n : Z) : result string :=
  if (0 <=? n) && (n <? 253402300800) then
    let '(y, m, d) := civil_from_days (n / 86400) in
    Ok (two_digits (y / 100) +:+ two_digits (y mod 100) +:+ "-"
        +:+ two_digits m +:+ "-" +:+ two_digits d)
  else Raise OverflowError.

Definition digit_value (c : ascii) : option Z :=
  let n := nat_of_ascii c in
  if ((48 <=? n) && (n <=? 57))%nat then Some (Z.of_nat n - 48) else None.

Fixpoint number (s : string) (acc : Z) : option Z :=
  match s with
  | EmptyString => Some acc
  | String c rest => v ← digit_value c; number rest (10 * acc + v)
  end.

(** Dates in the zero-padded form dd/mm/yyyy. *)
Definition utc_mktime (date : string) : result Z :=
  match number (substring 0 2 date) 0, number (substring 3 2 date) 0,
        number (substring 6 4 date) 0 with
  | Some d, Some m, Some y =>
      if bool_decide (String.length date = 10%nat
                      ∧ substring 2 1 date = "/" ∧ substring 5 1 date = "/"
                      ∧ 1 ≤ m ≤ 12 ∧ 1 ≤ d ≤ 31)
      then Ok (days_from_civil y m d * 86400)
      else Raise ValueError
  | _, _, _ => Raise ValueError
  end.

#[global] Instance network : Network := {|
  world := script;
  session_call := scripted_call
|}.

#[global] Instance platform : Platform := {|
  int_of_str := λ s, match number s 0 with
                     | Some n => if bool_decide (s = "") then Raise ValueError else Ok n
                     | None => Raise ValueError
                     end;
  py_repr := λ _, "<object>";
  strftime_localtime := utc_strftime;
  mktime_strptime := utc_mktime
|}.

Definition empty_db : database :=
  {| live := ∅; committed := ∅; in_transaction := false |}.

Definition start (w : script) (d : database) : state :=
  {| net := w; trace := []; db := d |}.

Definition json_response (code : Z) (v : json) (body : string) : result response :=
  Ok {| status_code := code;
        headers := [("Content-Type", "application/json; charset=utf-8")];
        text := body;
        json_body := Some v |}.

(** *** Inputs for concrete runs *)

Definition ok_json : response :=
  {| status_code := 200;
     headers := [("content-type", "application/json; charset=utf-8")];
     text := "[]";
     json_body := Some (JArr []) |}.

Definition ok_csv : response :=
  {| status_code := 200;
     headers := [("Content-Type", "text/csv")];
     text := "t,c";
     json_body := None |}.

Definition ok_html : response :=
  {| status_code := 200;
     headers := [("Content-Type", "text/html")];
     text := "<html/>";
     json_body := None |}.

Definition apple_daily : list json := [JStr "AAPL"; JStr "D"; JInt 1; JInt 2].

(** The answers of a small vendor. *)
Definition index_body : json := JObj [("constituents", JArr [JStr "AAA"])].

Definition index_answer : result response :=
  json_response 200 index_body
    ("{" +:+ quoted "constituents" +:+ ": [" +:+ quoted "AAA" +:+ "]}").

Definition empty_profile_answer : result response := json_response 200 (JObj []) "{}".

Definition partial_profile : json := JObj [("name", JStr "Acme"); ("ticker", JStr "AAA")].

Definition partial_profile_answer : result response :=
  json_response 200 partial_profile
    ("{" +:+ quoted "name" +:+ ": " +:+ quoted "Acme" +:+ ", "
     +:+ quoted "ticker" +:+ ": " +:+ quoted "AAA" +:+ "}").

Definition limit_answer : result response :=
  json_response 429 (JObj [("error", JStr "API limit reached.")])
    ("{" +:+ quoted "error" +:+ ": " +:+ quoted "API limit reached." +:+ "}").

Definition timed_out : result response := Raise (TransportError "read timed out").

Definition empty_index_answer : result response :=
  json_response 200 (JObj [("constituents", JArr [])])
    ("{" +:+ quoted "constituents" +:+ ": []}").

(** A database on which [FinnhubDB] has just been opened. *)
Definition opened (w : script) : state := (create_tables (start w empty_db)).2.


(** A collected FX listing. *)
Definition oanda_eur : fx_entry :=
  {| fx_description := JStr "Oanda EUR/USD";
     fx_displaySymbol := JStr "EUR/USD";
     fx_symbol := JStr "OANDA:EUR_USD" |}.

Definition forex_eur : fx_entry :=
  {| fx_description := JStr "FOREX.com EUR/USD";
     fx_displaySymbol := JStr "EUR/USD";
     fx_symbol := JStr "FOREX:401484347" |}.


Definition forex_gbp : fx_entry :=
  {| fx_description := JStr "FOREX.com GBP/USD";
     fx_displaySymbol := JStr "GBP/USD";
     fx_symbol := JStr "FOREX:401484392" |}.

Definition fx_day : json :=
  JObj [("c", JArr [JFloat (FFinite 9 (-3))]); ("h", JArr [JFloat (FFinite 5 (-2))]);
        ("l", JArr [JInt 1]); ("o", JArr [JFloat (FFinite 9 (-3))]);
        ("s", JStr "ok"); ("t", JArr [JInt 1578614400]); ("v", JArr [JInt 0])].

Definition fx_day_answer : result response := json_response 200 fx_day "{...}".

Definition fx_day_row : row :=
  [JStr "EUR/USD"; JFloat (FFinite 9 (-3)); JFloat (FFinite 5 (-2)); JInt 1;
   JFloat (FFinite 9 (-3)); JStr "2020-01-10"].

(** *** Inputs for further runs *)

Definition error_list_answer : response :=
  {| status_code := 503;
     headers := [("Content-Type", "application/json")];
     text := "[]";
     json_body := Some (JArr []) |}.

Definition ok_without_type : response :=
  {| status_code := 200;
     headers := [("Date", "Fri, 10 Jan 2020 00:00:00 GMT")];
     text := "{}";
     json_body := Some (JObj []) |}.

Definition full_profile_fields : list (string * json) :=
  [("country", JStr "US"); ("currency", JStr "USD"); ("exchange", JStr "NASDAQ");
   ("finnhubIndustry", JStr "Technology"); ("ipo", JStr "1980-12-12");
   ("logo", JStr "https://acme.example/logo.png"); ("marketCapitalization", JInt 1000);
   ("name", JStr "Acme"); ("phone", JStr "14089961010");
   ("shareOutstanding", JFloat (FFinite 33 (-1))); ("ticker", JStr "AAA");
   ("weburl", JStr "https://acme.example"); ("estimateCurrency", JStr "USD")].

Definition full_profile_row : row :=
  [JStr "US"; JStr "USD"; JStr "NASDAQ"; JStr "Technology"; JStr "1980-12-12";
   JStr "https://acme.example/logo.png"; JInt 1000; JStr "Acme"; JStr "14089961010";
   JFloat (FFinite 33 (-1)); JStr "AAA"; JStr "https://acme.example"].

Definition full_profile_answer : result response :=
  json_response 200 (JObj full_profile_fields) "{...}".

Definition no_data_answer : result response :=
  json_response 200 (JObj [("s", JStr "no_data")])
    ("{" +:+ quoted "s" +:+ ": " +:+ quoted "no_data" +:+ "}").

Definition short_volume_fields : list (string * json) :=
  [("c", JArr [JInt 150; JInt 152]); ("h", JArr [JInt 151; JInt 153]);
   ("l", JArr [JInt 149; JInt 150]); ("o", JArr [JInt 150; JInt 151]);
   ("t", JArr [JInt 1578614400; JInt 1578700800]); ("v", JArr [JInt 1000])].

Definition fx_day_fields : list (string * json) :=
  [("c", JArr [JFloat (FFinite 9 (-3))]); ("h", JArr [JFloat (FFinite 5 (-2))]);
   ("l", JArr [JInt 1]); ("o", JArr [JFloat (FFinite 9 (-3))]);
   ("s", JStr "ok"); ("t", JArr [JInt 1578614400])].





Definition symbols_answer : result response :=
  json_response 200
    (JArr [JObj [("description", JStr "FOREX.com EUR/USD");
                 ("displaySymbol", JStr "EUR/USD");
                 ("symbol", JStr "FOREX:401484347")]]) "[...]".


Definition index_without_constituents : result response :=
  json_response 200 (JObj [("error", JStr "Symbol not supported")]) "{...}".





End Scripted.

(** * Properties *)

Section Properties.
Context `{NW : Network} `{PF : Platform}.

Implicit Types (s : state) (r : response) (v : json) (e : exn).

(** ** Response handling *)

Lemma handle_response_not_ok r :
  ok r = false →
  _handle_response r = (FinnhubAPIException_new r ≫= Raise).
Proof. intros Hok. unfold _handle_response. by rewrite Hok. Qed.

(** A failed call whose body does not decode raises the API error with the
    status code and the first fallback message. *)
Lemma handle_response_error_undecodable r :
  ok r = false →
  json_body r = None →
  _handle_response r =
    Raise (FinnhubAPIException (status_code r)
             (JStr ("JSON error message from Finnhub: " +:+ text r))).
Proof.
  intros Hok Hbody. rewrite handle_response_not_ok by done.
  unfold FinnhubAPIException_new, response_json. by rewrite Hbody.
Qed.

(** A failed call whose body decodes to an object raises the API error with
    the status code and the object's error field, or the second fallback
    message. *)
Lemma handle_response_error_object r fields :
  ok r = false →
  json_body r = Some (JObj fields) →
  _handle_response r =
    match assoc "error" fields with
    | Some message => Raise (FinnhubAPIException (status_code r) message)
    | None =>
        Raise (FinnhubAPIException (status_code r)
                 (JStr "Wrong json format from FinnhubAPI"))
    end.
Proof.
  intros Hok Hbody. rewrite handle_response_not_ok by done.
  unfold FinnhubAPIException_new, response_json. rewrite Hbody. simpl.
  unfold py_getitem.
  by destruct (assoc "error" fields) as [message|].
Qed.

(** C7. A response with a success status: under a JSON content type the
    decoded JSON value is returned, and a body that fails to decode raises
    the request error with the raw text; otherwise under a CSV or plain-text
    content type the body text is returned unchanged; under any other
    content type the request error with the raw text is raised. The content
    type is recognised by the markers application/json, text/csv and
    text/plain, tried in that order. *)
Theorem handle_response_success r :
  ok r = true →
  let content_type := headers_get "Content-Type" "" (headers r) in
  (contains "application/json" content_type = true →
     _handle_response r =
       match json_body r with
       | Some v => Ok v
       | None => Raise (FinnhubRequestException ("Invalid Response: " +:+ text r))
       end)
  ∧ (contains "application/json" content_type = false →
     contains "text/csv" content_type = true ∨ contains "text/plain" content_type = true →
     _handle_response r = Ok (JStr (text r)))
  ∧ (contains "application/json" content_type = false →
     contains "text/csv" content_type = false →
     contains "text/plain" content_type = false →
     _handle_response r = Raise (FinnhubRequestException ("Invalid Response: " +:+ text r))).
Proof.
  intros Hok content_type. unfold _handle_response. rewrite Hok. simpl.
  fold content_type. repeat split.
  - intros ->. unfold response_json. by destruct (json_body r).
  - intros -> [Hcsv | Hplain].
    + by rewrite Hcsv.
    + rewrite Hplain. by destruct (contains "text/csv" content_type).
  - by intros -> -> ->.
Qed.

(** C2, at two failing inputs: a body that is valid JSON but neither an
    object, a list nor a string without the word, makes the construction
    of the API error itself raise a TypeError. *)
Theorem handle_response_error_non_object :
  _handle_response
    {| status_code := 500; headers := [("Content-Type", "application/json")];
       text := "null"; json_body := Some JNull |} = Raise TypeError
  ∧ _handle_response
      {| status_code := 502; headers := [("Content-Type", "text/html")];
         text := quoted "server error"; json_body := Some (JStr "server error") |}
    = Raise TypeError.
Proof. split; reflexivity. Qed.

(** ** The persistence layer *)

Lemma M_bind_Ok {A B} (m : M A) (f : A → M B) s a s' :
  m s = (Ok a, s') → (m ≫= f) s = f a s'.
Proof. intros H. unfold mbind, M_mbind, M_bind. by rewrite H. Qed.

Lemma M_bind_Raise {A B} (m : M A) (f : A → M B) s e s' :
  m s = (Raise e, s') → (m ≫= f) s = (Raise e, s').
Proof. intros H. unfold mbind, M_mbind, M_bind. by rewrite H. Qed.

Lemma modify_db_Ok f s d :
  f (db s) = Ok d → modify_db f s = (Ok (), with_db d s).
Proof. intros H. unfold modify_db. by rewrite H. Qed.

Lemma create_table_live t d :
  ∃ d', sql_create_table_if_not_exists t d = Ok d'
        ∧ is_Some (live d' !! t)
        ∧ ∀ t', is_Some (live d !! t') → is_Some (live d' !! t').
Proof.
  unfold sql_create_table_if_not_exists.
  destruct (live d !! t) as [rows|] eqn:Ht.
  - exists d. by rewrite Ht.
  - eexists. split; [done |]. cbn [live]. split.
    + rewrite lookup_insert_eq. eauto.
    + intros t' Ht'. apply lookup_insert_is_Some'. by right.
Qed.

Lemma delete_from_live t d :
  is_Some (live d !! t) →
  sql_delete_from t d =
    Ok {| live := <[t := []]> (live d); committed := committed d; in_transaction := true |}.
Proof. intros [rows Ht]. unfold sql_delete_from. by rewrite Ht. Qed.

(** C3. Whatever the database held before (tables absent, empty, or filled
    by an earlier run), [create_tables] completes, and afterwards each of
    the four tables exists with no rows, both as the connection sees it
    and as committed. *)
Theorem create_tables_all_empty s :
  ∃ d, create_tables s = (Ok (), with_db d s)
       ∧ in_transaction d = false
       ∧ ∀ t, t ∈ table_names → live d !! t = Some [] ∧ committed d !! t = Some [].
Proof.
  destruct (create_table_live "anagraphic_table" (db s)) as (d1 & E1 & L1 & _).
  destruct (create_table_live "stock_historical_data" d1) as (d2 & E2 & L2 & K2).
  destruct (create_table_live "fxanagraphic_data" d2) as (d3 & E3 & L3 & K3).
  destruct (create_table_live "fxhistorical_data" d3) as (d4 & E4 & L4 & K4).
  pose proof (K4 _ L3) as L3'. pose proof (K4 _ (K3 _ L2)) as L2'.
  pose proof (K4 _ (K3 _ (K2 _ L1))) as L1'.
  set (final :=
         <["fxhistorical_data" := []]>
           (<["fxanagraphic_data" := []]>
              (<["stock_historical_data" := []]>
                 (<["anagraphic_table" := []]> (live d4))))).
  exists {| live := final; committed := final; in_transaction := false |}.
  split; [| split; [done |]].
  - unfold create_tables.
    erewrite M_bind_Ok by (apply modify_db_Ok; exact E1).
    erewrite M_bind_Ok by (apply modify_db_Ok; exact E2).
    erewrite M_bind_Ok by (apply modify_db_Ok; exact E3).
    erewrite M_bind_Ok by (apply modify_db_Ok; exact E4).
    erewrite M_bind_Ok
      by (apply modify_db_Ok; apply delete_from_live; exact L1').
    erewrite M_bind_Ok
      by (apply modify_db_Ok; apply delete_from_live; cbn [db with_db live];
          apply lookup_insert_is_Some'; right; exact L2').
    erewrite M_bind_Ok
      by (apply modify_db_Ok; apply delete_from_live; cbn [db with_db live];
          do 2 (apply lookup_insert_is_Some'; right); exact L3').
    erewrite M_bind_Ok
      by (apply modify_db_Ok; apply delete_from_live; cbn [db with_db live];
          do 3 (apply lookup_insert_is_Some'; right); exact L4).
    reflexivity.
  - intros t Ht. cbn [live committed]. unfold table_names in Ht.
    assert (final !! t = Some []) as ->; [| done].
    unfold final.
    repeat (apply elem_of_cons in Ht as [-> | Ht];
            [repeat (rewrite lookup_insert_ne by done); by rewrite lookup_insert_eq |]).
    by apply elem_of_nil in Ht.
Qed.

(** ** Requests and keyword arguments *)

Lemma merge_two_dicts_lookup (first second : gmap string json) k :
  _merge_two_dicts first second !! k =
    match second !! k with
    | Some v => Some v
    | None => first !! k
    end.
Proof.
  unfold _merge_two_dicts. rewrite lookup_union.
  by destruct (second !! k), (first !! k).
Qed.

(** Every request is sent once, with the formatted query and the default
    timeout; the database is not touched. *)
Lemma request_state method path (params : gmap string json) s :
  trace (_request method path params s).2 =
    trace s ++ [EvRequest method (API_URL +:+ "/" +:+ path) (_format_params params)
                  DEFAULT_TIMEOUT]
  ∧ db (_request method path params s).2 = db s.
Proof.
  unfold _request.
  by destruct (session_call _ _ _ _ _) as [answer w].
Qed.

Lemma request_raises method path (params : gmap string json) s e w :
  session_call method (API_URL +:+ "/" +:+ path) (_format_params params)
    DEFAULT_TIMEOUT (net s) = (Raise e, w) →
  (_request method path params s).1 = Raise e.
Proof. intros H. unfold _request. by rewrite H. Qed.

Lemma bind_arguments_twice self names args (kws : gmap string json) k :
  length args = length names →
  k ∈ self :: names →
  is_Some (kws !! k) →
  bind_arguments (self :: names) args kws = Raise TypeError.
Proof.
  intros Hlen Hk Hkw. unfold bind_arguments.
  rewrite Hlen, Nat.ltb_irrefl, firstn_all.
  assert (existsb (λ k, bool_decide (is_Some (kws !! k))) (self :: names) = true)
    as ->; [| done].
  apply existsb_exists. exists k. split; [by apply list_elem_of_In |].
  by apply bool_decide_eq_true_2.
Qed.

Lemma foldr_delete_absent names (kws : gmap string json) :
  (∀ k, k ∈ names → kws !! k = None) → foldr delete kws names = kws.
Proof.
  induction names as [|n names IH]; intros H; [done |].
  simpl. rewrite IH by (intros; apply H; by right).
  apply delete_id, H. by left.
Qed.

Lemma bind_arguments_positional self names args (kws : gmap string json) :
  length args = length names →
  (∀ k, k ∈ self :: names → kws !! k = None) →
  bind_arguments (self :: names) args kws = Ok (list_to_map (zip names args), kws).
Proof.
  intros Hlen Habs. unfold bind_arguments.
  rewrite Hlen, Nat.ltb_irrefl, firstn_all.
  assert (∀ l, (∀ k, k ∈ l → kws !! k = None) →
               existsb (λ k, bool_decide (is_Some (kws !! k))) l = false
               ∧ filter (λ k, bool_decide (is_Some (kws !! k))) l = []) as Hnone.
  { induction l as [|x l IH]; intros Hl; [done |].
    destruct IH as [IH1 IH2]; [intros; apply Hl; by right |].
    simpl. rewrite filter_cons, IH1, IH2, (Hl x) by (by left).
    split; [done |]. by rewrite decide_False by (by intros ?%Is_true_true). }
  destruct (Hnone (self :: names) Habs) as [-> _].
  destruct (Hnone names) as [_ ->]; [intros; apply Habs; by right |].
  rewrite (foldr_delete_absent _ _ Habs). simpl.
  by rewrite (right_id_L ∅ (∪)).
Qed.

(** A call with all parameters after [self] given by position and no
    keyword naming a declared parameter: the method's own fields are exactly
    its required fields, merged under the keywords. *)
Lemma call_positional op args (kws : gmap string json) s :
  length args = length (parameters op) →
  (∀ k, k ∈ declared op → kws !! k = None) →
  ∃ first : gmap string json,
    call op args kws s = _get (endpoint op) (_merge_two_dicts first kws) s
    ∧ ∀ k, is_Some (first !! k) ↔ k ∈ required_fields op.
Proof.
  intros Hlen Habs. unfold call.
  erewrite M_bind_Ok
    by (unfold liftR, declared; by rewrite (bind_arguments_positional _ _ _ _ Hlen Habs)).
  destruct op; simpl in Hlen;
    repeat (destruct args as [|? args]; try discriminate Hlen); clear Hlen Habs;
    (eexists; split; [reflexivity |]);
    intros k; rewrite <- elem_of_dom;
    rewrite ?dom_insert_L, dom_singleton_L; cbn [required_fields];
    rewrite ?elem_of_cons, elem_of_nil, ?elem_of_union, ?elem_of_singleton; tauto.
Qed.

(** C8, amended. For a call on the client that gives every parameter after
    self by position: (i) a keyword argument named like a declared
    parameter (self, symbol, resolution, _from, to, exchange) is rejected
    with a TypeError before any request is sent, so it never overrides the
    positional value; (ii) keyword arguments that name no declared
    parameter all reach the outgoing query, where the merge gives them
    precedence, also over a field the method sets itself (from, whose
    parameter is declared as _from, or the fixed symbol field of
    forex_exchanges). *)
Theorem keyword_arguments_in_query op args (kws : gmap string json) s :
  length args = length (parameters op) →
  ((∃ k, k ∈ declared op ∧ is_Some (kws !! k)) →
     call op args kws s = (Raise TypeError, s))
  ∧ ((∀ k, k ∈ declared op → kws !! k = None) →
     ∃ query : gmap string json,
       trace (call op args kws s).2 =
         trace s ++ [EvRequest "get" (API_URL +:+ "/" +:+ endpoint op) query DEFAULT_TIMEOUT]
       ∧ ∀ k v, kws !! k = Some v → query !! k = Some (format_value v)).
Proof.
  intros Hlen. split.
  - intros (k & Hk & Hkw). unfold call.
    apply M_bind_Raise. unfold liftR, declared.
    by rewrite (bind_arguments_twice _ _ _ _ k Hlen Hk Hkw).
  - intros Habs.
    destruct (call_positional op args kws s Hlen Habs) as (first & -> & _).
    eexists. split; [apply request_state |].
    intros k v Hk. unfold _format_params.
    by rewrite lookup_fmap, merge_two_dicts_lookup, Hk.
Qed.

(** ** Loops, handlers and the shape of a run *)

Lemma M_bind_inv_Ok {A B} (m : M A) (f : A → M B) s b s' :
  (m ≫= f) s = (Ok b, s') → ∃ a s1, m s = (Ok a, s1) ∧ f a s1 = (Ok b, s').
Proof.
  unfold mbind, M_mbind, M_bind.
  destruct (m s) as [[a|e] s1]; [eauto | discriminate].
Qed.

Lemma for_each_app {A B} (body : B → A → M B) before after acc s :
  for_each body (before ++ after) acc s =
    match for_each body before acc s with
    | (Ok acc', s') => for_each body after acc' s'
    | (Raise e, s') => (Raise e, s')
    end.
Proof.
  revert acc s. induction before as [|x before IH]; intros acc s; [done |].
  simpl. unfold mbind, M_mbind, M_bind.
  destruct (body acc x s) as [[acc'|e] s']; [apply IH | done].
Qed.

(** An exception in one iteration ends the loop with that exception. *)
Lemma for_each_raises_at {A B} (body : B → A → M B) before x after acc acc' s s' e s'' :
  for_each body before acc s = (Ok acc', s') →
  body acc' x s' = (Raise e, s'') →
  for_each body (before ++ x :: after) acc s = (Raise e, s'').
Proof.
  intros Hbefore Hx. rewrite for_each_app, Hbefore. simpl.
  by erewrite M_bind_Raise.
Qed.

Lemma try_except_Ok {A} (body handler : M A) s a s' :
  body s = (Ok a, s') → try_except body handler s = (Ok a, s').
Proof. intros H. unfold try_except. by rewrite H. Qed.

Lemma try_except_Raise {A} (body handler : M A) s e s' :
  body s = (Raise e, s') → try_except body handler s = handler s'.
Proof. intros H. unfold try_except. by rewrite H. Qed.

Lemma sleep_then {A} (m : M A) seconds s :
  (_ ← sleep seconds; m) s = m (log (EvSleep seconds) s).
Proof. done. Qed.

Lemma stock_profile_state i s :
  trace (stock_profile i ∅ s).2 = trace s ++ [profile_request i]
  ∧ db (stock_profile i ∅ s).2 = db s.
Proof.
  unfold stock_profile, _get, _merge_two_dicts, profile_request.
  rewrite (left_id_L ∅ (∪)). apply request_state.
Qed.

Lemma candles_state path i a b s :
  trace (_get path
           (_merge_two_dicts
              {[ "symbol" := i; "resolution" := JStr "D"; "from" := JInt a; "to" := JInt b ]}
              ∅) s).2
  = trace s ++ [candles_request path i a b].
Proof.
  unfold _get, _merge_two_dicts, candles_request.
  rewrite (left_id_L ∅ (∪)). apply request_state.
Qed.

Lemma prelude_dates stockmarket from_date to_date s0 a b indx_const sA :
  prelude stockmarket from_date to_date s0 = (Ok (a, b, indx_const), sA) →
  mktime_strptime from_date = Ok a ∧ mktime_strptime to_date = Ok b.
Proof.
  unfold prelude, mbind, M_mbind, M_bind, liftR.
  destruct (mktime_strptime from_date) as [a'|]; [| discriminate].
  destruct (mktime_strptime to_date) as [b'|]; [| discriminate].
  destruct (index_constituents _ _ _) as [[indx|] s1]; [| discriminate].
  unfold mret, M_mret, M_ret. by intros [= -> -> _ _].
Qed.

Lemma store_data_after_prelude stockmarket fxcurr from_date to_date s0 a b indx_const sA :
  prelude stockmarket from_date to_date s0 = (Ok (a, b, indx_const), sA) →
  store_data stockmarket fxcurr from_date to_date s0 =
    from_phase1 from_date to_date a b fxcurr indx_const sA.
Proof.
  unfold prelude, store_data, mbind, M_mbind, M_bind, liftR.
  destruct (mktime_strptime from_date) as [a'|]; [| discriminate].
  destruct (mktime_strptime to_date) as [b'|]; [| discriminate].
  destruct (index_constituents _ _ _) as [[indx|] s1]; [| discriminate].
  unfold mret, M_mret, M_ret. by intros [= -> -> -> ->].
Qed.

Lemma store_data_after_phase1 stockmarket fxcurr from_date to_date s0 a b indx_const sB :
  through_phase1 stockmarket from_date to_date s0 = (Ok (a, b, indx_const), sB) →
  store_data stockmarket fxcurr from_date to_date s0 =
    from_phase2 from_date to_date a b fxcurr indx_const sB.
Proof.
  intros H. unfold through_phase1 in H.
  apply M_bind_inv_Ok in H as ([[a' b'] indx] & sA & Hpre & H).
  rewrite (store_data_after_prelude _ _ _ _ _ _ _ _ _ Hpre).
  apply M_bind_inv_Ok in H as (stockprofile & s1 & H1 & H).
  apply M_bind_inv_Ok in H as ([] & s2 & H2 & H).
  unfold mret, M_mret, M_ret in H. injection H as -> -> -> ->.
  unfold from_phase1.
  erewrite M_bind_Ok by exact H1. by erewrite M_bind_Ok by exact H2.
Qed.

Lemma through_phase1_dates stockmarket from_date to_date s0 a b indx_const sB :
  through_phase1 stockmarket from_date to_date s0 = (Ok (a, b, indx_const), sB) →
  mktime_strptime from_date = Ok a ∧ mktime_strptime to_date = Ok b.
Proof.
  intros H. unfold through_phase1 in H.
  apply M_bind_inv_Ok in H as ([[a' b'] indx] & sA & Hpre & H).
  apply M_bind_inv_Ok in H as (stockprofile & s1 & H1 & H).
  apply M_bind_inv_Ok in H as ([] & s2 & H2 & H).
  unfold mret, M_mret, M_ret in H. injection H as -> -> -> ->.
  by eapply prelude_dates.
Qed.

Lemma store_data_after_phase2 stockmarket fxcurr from_date to_date s0 a b s :
  through_phase2 stockmarket from_date to_date s0 = (Ok (a, b), s) →
  store_data stockmarket fxcurr from_date to_date s0 = from_phase3 a b fxcurr s.
Proof.
  intros H. unfold through_phase2 in H.
  apply M_bind_inv_Ok in H as ([[a' b'] indx] & sB & Hpre & H).
  rewrite (store_data_after_phase1 _ _ _ _ _ _ _ _ _ Hpre).
  apply M_bind_inv_Ok in H as (prices & s1 & H1 & H).
  apply M_bind_inv_Ok in H as ([] & s2 & H2 & H).
  unfold mret, M_mret, M_ret in H. injection H as -> -> ->.
  unfold from_phase2.
  erewrite M_bind_Ok by exact H1. by erewrite M_bind_Ok by exact H2.
Qed.

Lemma run_aborts_in_phase1 stockmarket fxcurr from_date to_date s0 i stockprofile s e s' :
  phase1_reaches stockmarket from_date to_date s0 i stockprofile s →
  phase1_step stockprofile i s = (Raise e, s') →
  store_data stockmarket fxcurr from_date to_date s0 = (Raise e, s').
Proof.
  intros (a & b & indx & sA & before & after & Hpre & Hc & Hloop) Hstep.
  rewrite (store_data_after_prelude _ _ _ _ _ _ _ _ _ Hpre).
  unfold from_phase1. apply M_bind_Raise. unfold phase1.
  erewrite M_bind_Ok by (unfold liftR; by rewrite Hc).
  by eapply for_each_raises_at.
Qed.

Lemma run_aborts_in_phase2 stockmarket fxcurr from_date to_date s0 a b i prices s e s' :
  phase2_reaches stockmarket from_date to_date s0 a b i prices s →
  phase2_step from_date to_date prices i s = (Raise e, s') →
  store_data stockmarket fxcurr from_date to_date s0 = (Raise e, s').
Proof.
  intros (indx & sB & before & after & Hpre & Hc & Hloop) Hstep.
  rewrite (store_data_after_phase1 _ _ _ _ _ _ _ _ _ Hpre).
  unfold from_phase2. apply M_bind_Raise. unfold phase2.
  erewrite M_bind_Ok by (unfold liftR; by rewrite Hc).
  by eapply for_each_raises_at.
Qed.

Lemma run_aborts_in_phase3 stockmarket fxcurr from_date to_date s0 s e s' :
  phase3_reaches stockmarket from_date to_date s0 s →
  phase3 s = (Raise e, s') →
  store_data stockmarket fxcurr from_date to_date s0 = (Raise e, s').
Proof.
  intros (a & b & Hpre) Hphase.
  rewrite (store_data_after_phase2 _ _ _ _ _ _ _ _ Hpre).
  unfold from_phase3. by apply M_bind_Raise.
Qed.

(** ** Phase 1 *)

Lemma store_profile_raises i stockprofile s e s1 :
  stock_profile i ∅ s = (Raise e, s1) →
  store_profile i stockprofile s = (Raise e, s1).
Proof. intros H. unfold store_profile. by apply M_bind_Raise. Qed.

Lemma store_profile_fetched i stockprofile s sp s1 :
  stock_profile i ∅ s = (Ok sp, s1) →
  store_profile i stockprofile s =
    if py_eq_empty_dict sp then (Ok stockprofile, s1)
    else match profile_row sp with
         | Ok r => (Ok (stockprofile ++ [r]), s1)
         | Raise e => (Raise e, s1)
         end.
Proof.
  intros H. unfold store_profile. erewrite M_bind_Ok by exact H.
  destruct (py_eq_empty_dict sp); [done |].
  unfold mbind, M_mbind, M_bind, liftR. by destruct (profile_row sp).
Qed.

Lemma phase1_step_retries i stockprofile s e s1 :
  store_profile i stockprofile s = (Raise e, s1) →
  phase1_step stockprofile i s = store_profile i stockprofile (log (EvSleep 80) s1).
Proof.
  intros H. unfold phase1_step. by erewrite try_except_Raise by exact H.
Qed.

Lemma mapM_first_failure {A B} (f : A → result B) (l : list A) :
  (∃ x, x ∈ l ∧ is_Ok (f x) = false) →
  ∃ x e, x ∈ l ∧ f x = Raise e ∧ mapM f l = Raise e.
Proof.
  induction l as [|x l IH]; intros (y & Hy & Hfail); [by apply elem_of_nil in Hy |].
  simpl. destruct (f x) as [b|e] eqn:Hx.
  - destruct IH as (x' & e & Hin & Hx' & Hmap).
    { apply elem_of_cons in Hy as [-> | Hy]; [by rewrite Hx in Hfail | eauto]. }
    exists x', e. split; [by right |]. split; [done |].
    simpl. by rewrite Hmap.
  - exists x, e. split; [by left | done].
Qed.

(** Building the row of an object that lacks a required field raises the
    KeyError of the first field it lacks. *)
Lemma profile_row_missing_field fields :
  (∃ k, k ∈ profile_fields ∧ assoc k fields = None) →
  ∃ k, k ∈ profile_fields ∧ assoc k fields = None
       ∧ profile_row (JObj fields) = Raise (KeyError (JStr k)).
Proof.
  intros (k & Hk & Hnone).
  destruct (mapM_first_failure (py_getitem (JObj fields)) profile_fields)
    as (k' & e & Hk' & Hget & Hrow).
  { exists k. split; [done |]. simpl. by rewrite Hnone. }
  exists k'. simpl in Hget.
  destruct (assoc k' fields); [discriminate |].
  injection Hget as <-. done.
Qed.

(** C5. When the profile fetched for a constituent is the empty structure
    (at the first attempt, or at the retry that follows a failed attempt),
    Phase 1 adds no row for it, raises nothing, and goes on with the next
    constituent. *)
Theorem phase1_skips_empty_profile i stockprofile s s1 :
  stock_profile i ∅ s = (Ok (JObj []), s1)
  ∨ (∃ e s', store_profile i stockprofile s = (Raise e, s')
             ∧ stock_profile i ∅ (log (EvSleep 80) s') = (Ok (JObj []), s1)) →
  phase1_step stockprofile i s = (Ok stockprofile, s1)
  ∧ ∀ rest, for_each phase1_step (i :: rest) stockprofile s
            = for_each phase1_step rest stockprofile s1.
Proof.
  intros H.
  assert (phase1_step stockprofile i s = (Ok stockprofile, s1)) as Hstep.
  { destruct H as [H | (e & s' & Hfail & H)].
    - unfold phase1_step. apply try_except_Ok.
      by rewrite (store_profile_fetched _ _ _ _ _ H).
    - rewrite (phase1_step_retries _ _ _ _ _ Hfail).
      by rewrite (store_profile_fetched _ _ _ _ _ H). }
  split; [done |]. intros rest. simpl. by erewrite M_bind_Ok by exact Hstep.
Qed.

(** C9. In Phase 1 a fetched profile is skipped exactly when it is the
    empty structure. A non-empty object that lacks a required field raises
    a KeyError while its row is built; that triggers the sleep and the one
    retry, as a failed fetch does; and when the retried profile is again a
    non-empty object lacking a field, its KeyError ends the run. *)
Theorem phase1_incomplete_profile stockmarket fxcurr from_date to_date s0
    i stockprofile s sp s1 :
  phase1_reaches stockmarket from_date to_date s0 i stockprofile s →
  stock_profile i ∅ s = (Ok sp, s1) →
  (store_profile i stockprofile s = (Ok stockprofile, s1) ↔ sp = JObj [])
  ∧ ∀ fields,
      sp = JObj fields → fields ≠ [] →
      (∃ k, k ∈ profile_fields ∧ assoc k fields = None) →
      (∃ k, k ∈ profile_fields ∧ assoc k fields = None
            ∧ store_profile i stockprofile s = (Raise (KeyError (JStr k)), s1))
      ∧ phase1_step stockprofile i s = store_profile i stockprofile (log (EvSleep 80) s1)
      ∧ ∀ fields2 s2,
          stock_profile i ∅ (log (EvSleep 80) s1) = (Ok (JObj fields2), s2) →
          fields2 ≠ [] →
          (∃ k, k ∈ profile_fields ∧ assoc k fields2 = None) →
          ∃ k2, k2 ∈ profile_fields ∧ assoc k2 fields2 = None
                ∧ store_data stockmarket fxcurr from_date to_date s0
                  = (Raise (KeyError (JStr k2)), s2).
Proof.
  intros Hreach Hfetch. split.
  - rewrite (store_profile_fetched _ _ _ _ _ Hfetch). split.
    + destruct (py_eq_empty_dict sp) eqn:Hempty.
      * intros _. by destruct sp as [| | | | | |[|]].
      * destruct (profile_row sp) as [r|]; [| discriminate].
        intros [= H]. apply (f_equal length) in H.
        rewrite length_app in H. simpl in H. lia.
    + by intros ->.
  - intros fields -> Hne Hmissing.
    destruct (profile_row_missing_field fields Hmissing) as (k & Hk & Hnone & Hrow).
    assert (store_profile i stockprofile s = (Raise (KeyError (JStr k)), s1)) as Hfail.
    { rewrite (store_profile_fetched _ _ _ _ _ Hfetch), Hrow. by destruct fields. }
    split; [by exists k |].
    split; [by apply (phase1_step_retries _ _ _ _ _ Hfail) |].
    intros fields2 s2 Hretry Hne2 Hmissing2.
    destruct (profile_row_missing_field fields2 Hmissing2) as (k2 & Hk2 & Hnone2 & Hrow2).
    exists k2. split; [done |]. split; [done |].
    eapply run_aborts_in_phase1; [exact Hreach |].
    rewrite (phase1_step_retries _ _ _ _ _ Hfail).
    rewrite (store_profile_fetched _ _ _ _ _ Hretry), Hrow2. by destruct fields2.
Qed.

(** ** The retry policy *)

Lemma M_bind_at {A B} (m m' : M A) (f : A → M B) s s' :
  m s = m' s' → (m ≫= f) s = (m' ≫= f) s'.
Proof. intros H. unfold mbind, M_mbind, M_bind. by rewrite H. Qed.

Lemma fetch_stock_candles_dates from_date to_date a b i s :
  mktime_strptime from_date = Ok a →
  mktime_strptime to_date = Ok b →
  fetch_stock_candles from_date to_date i s
  = stock_candles i (JStr "D") (JInt a) (JInt b) ∅ s.
Proof.
  intros Ha Hb. unfold fetch_stock_candles, mbind, M_mbind, M_bind, liftR.
  by rewrite Ha, Hb.
Qed.

Lemma phase1_retry stockmarket fxcurr from_date to_date s0 i stockprofile s e s1 :
  phase1_reaches stockmarket from_date to_date s0 i stockprofile s →
  stock_profile i ∅ s = (Raise e, s1) →
  phase1_step stockprofile i s = store_profile i stockprofile (log (EvSleep 80) s1)
  ∧ trace (log (EvSleep 80) s1) = trace s ++ [profile_request i; EvSleep 80]
  ∧ ∀ e2 s2,
      stock_profile i ∅ (log (EvSleep 80) s1) = (Raise e2, s2) →
      trace s2 = trace s ++ [profile_request i; EvSleep 80; profile_request i]
      ∧ store_data stockmarket fxcurr from_date to_date s0 = (Raise e2, s2).
Proof.
  intros Hreach Hfail.
  pose proof (store_profile_raises i stockprofile _ _ _ Hfail) as Hbody.
  pose proof (phase1_step_retries _ _ _ _ _ Hbody) as Hstep.
  assert (trace (log (EvSleep 80) s1) = trace s ++ [profile_request i; EvSleep 80]) as Htrace.
  { pose proof (proj1 (stock_profile_state i s)) as Ht. rewrite Hfail in Ht.
    simpl in Ht |- *. rewrite Ht. by rewrite <- app_assoc. }
  split; [done |]. split; [done |].
  intros e2 s2 Hretry. split.
  - pose proof (proj1 (stock_profile_state i (log (EvSleep 80) s1))) as Ht.
    rewrite Hretry, Htrace in Ht. simpl in Ht. rewrite Ht. by rewrite <- app_assoc.
  - eapply run_aborts_in_phase1; [exact Hreach |].
    rewrite Hstep. by apply store_profile_raises.
Qed.

Lemma phase2_retry stockmarket fxcurr from_date to_date s0 a b i prices s e s1 :
  phase2_reaches stockmarket from_date to_date s0 a b i prices s →
  stock_candles i (JStr "D") (JInt a) (JInt b) ∅ s = (Raise e, s1) →
  phase2_step from_date to_date prices i s =
    (stock ← stock_candles i (JStr "D") (JInt a) (JInt b) ∅;
     rows ← liftR (price_rows i stock);
     mret (prices ++ rows)) (log (EvSleep 80) s1)
  ∧ trace (log (EvSleep 80) s1)
    = trace s ++ [candles_request "/stock/candle" i a b; EvSleep 80]
  ∧ ∀ e2 s2,
      stock_candles i (JStr "D") (JInt a) (JInt b) ∅ (log (EvSleep 80) s1) = (Raise e2, s2) →
      trace s2 = trace s ++ [candles_request "/stock/candle" i a b; EvSleep 80;
                             candles_request "/stock/candle" i a b]
      ∧ store_data stockmarket fxcurr from_date to_date s0 = (Raise e2, s2).
Proof.
  intros Hreach Hfail.
  assert (mktime_strptime from_date = Ok a ∧ mktime_strptime to_date = Ok b) as [Ha Hb].
  { destruct Hreach as (indx & sB & before & after & Hpre & _).
    by eapply through_phase1_dates. }
  assert (phase2_step from_date to_date prices i s =
            (stock ← stock_candles i (JStr "D") (JInt a) (JInt b) ∅;
             rows ← liftR (price_rows i stock);
             mret (prices ++ rows)) (log (EvSleep 80) s1)) as Hstep.
  { unfold phase2_step, stock_candles_with_retry. apply M_bind_at.
    erewrite try_except_Raise
      by (rewrite (fetch_stock_candles_dates _ _ _ _ _ _ Ha Hb); exact Hfail).
    rewrite sleep_then. by apply fetch_stock_candles_dates. }
  assert (trace (log (EvSleep 80) s1)
          = trace s ++ [candles_request "/stock/candle" i a b; EvSleep 80]) as Htrace.
  { pose proof (candles_state "/stock/candle" i a b s) as Ht.
    unfold stock_candles in Hfail. rewrite Hfail in Ht.
    simpl in Ht |- *. rewrite Ht. by rewrite <- app_assoc. }
  split; [done |]. split; [done |].
  intros e2 s2 Hretry. split.
  - pose proof (candles_state "/stock/candle" i a b (log (EvSleep 80) s1)) as Ht.
    unfold stock_candles in Hretry. rewrite Hretry, Htrace in Ht.
    simpl in Ht. rewrite Ht. by rewrite <- app_assoc.
  - eapply run_aborts_in_phase2; [exact Hreach |].
    rewrite Hstep. by apply M_bind_Raise.
Qed.

Lemma phase3_no_retry_exchanges stockmarket fxcurr from_date to_date s0 s e s1 :
  phase3_reaches stockmarket from_date to_date s0 s →
  forex_exchanges ∅ s = (Raise e, s1) →
  store_data stockmarket fxcurr from_date to_date s0 = (Raise e, s1)
  ∧ trace s1 = trace s ++ [forex_exchanges_request].
Proof.
  intros Hreach Hfail. split.
  - eapply run_aborts_in_phase3; [exact Hreach |].
    unfold phase3. by apply M_bind_Raise.
  - unfold forex_exchanges, _get, _merge_two_dicts in Hfail.
    rewrite (left_id_L ∅ (∪)) in Hfail.
    pose proof (proj1 (request_state "get" "/forex/exchange"
                         {[ "symbol" := JStr "symbol" ]} s)) as Ht.
    by rewrite Hfail in Ht.
Qed.

Lemma phase3_no_retry_symbols stockmarket fxcurr from_date to_date s0 s
    exchanges sE before exch after fxanagraphic_data s' e s1 :
  phase3_reaches stockmarket from_date to_date s0 s →
  forex_exchanges ∅ s = (Ok exchanges, sE) →
  py_iter exchanges = Ok (before ++ exch :: after) →
  for_each phase3_exchange before [] sE = (Ok fxanagraphic_data, s') →
  fx_symbols exch ∅ s' = (Raise e, s1) →
  store_data stockmarket fxcurr from_date to_date s0 = (Raise e, s1)
  ∧ trace s1 = trace s' ++ [fx_symbols_request exch].
Proof.
  intros Hreach Hex Hiter Hloop Hfail. split.
  - eapply run_aborts_in_phase3; [exact Hreach |].
    unfold phase3. erewrite M_bind_Ok by exact Hex.
    erewrite M_bind_Ok by (unfold liftR; by rewrite Hiter).
    eapply for_each_raises_at; [exact Hloop |].
    unfold phase3_exchange. by apply M_bind_Raise.
  - unfold fx_symbols, _get, _merge_two_dicts in Hfail.
    rewrite (left_id_L ∅ (∪)) in Hfail.
    pose proof (proj1 (request_state "get" "/forex/symbol" {[ "exchange" := exch ]} s'))
      as Ht.
    by rewrite Hfail in Ht.
Qed.

(** C4. In Phase 1 and in Phase 2 a failed fetch for a constituent is
    followed by exactly one sleep of the fixed 80 seconds and exactly one
    repetition of the same request; when the repeated fetch fails too, its
    exception ends the run. In Phase 3 a failed fetch, of the exchange list
    or of the symbols of any exchange, ends the run at once: no sleep and
    no second request follow it. *)
Theorem retry_once_in_phases_1_2_only stockmarket fxcurr from_date to_date s0 :
  (∀ i stockprofile s e s1,
     phase1_reaches stockmarket from_date to_date s0 i stockprofile s →
     stock_profile i ∅ s = (Raise e, s1) →
     phase1_step stockprofile i s = store_profile i stockprofile (log (EvSleep 80) s1)
     ∧ trace (log (EvSleep 80) s1) = trace s ++ [profile_request i; EvSleep 80]
     ∧ ∀ e2 s2,
         stock_profile i ∅ (log (EvSleep 80) s1) = (Raise e2, s2) →
         trace s2 = trace s ++ [profile_request i; EvSleep 80; profile_request i]
         ∧ store_data stockmarket fxcurr from_date to_date s0 = (Raise e2, s2))
  ∧ (∀ a b i prices s e s1,
       phase2_reaches stockmarket from_date to_date s0 a b i prices s →
       stock_candles i (JStr "D") (JInt a) (JInt b) ∅ s = (Raise e, s1) →
       phase2_step from_date to_date prices i s =
         (stock ← stock_candles i (JStr "D") (JInt a) (JInt b) ∅;
          rows ← liftR (price_rows i stock);
          mret (prices ++ rows)) (log (EvSleep 80) s1)
       ∧ trace (log (EvSleep 80) s1)
         = trace s ++ [candles_request "/stock/candle" i a b; EvSleep 80]
       ∧ ∀ e2 s2,
           stock_candles i (JStr "D") (JInt a) (JInt b) ∅ (log (EvSleep 80) s1)
           = (Raise e2, s2) →
           trace s2 = trace s ++ [candles_request "/stock/candle" i a b; EvSleep 80;
                                  candles_request "/stock/candle" i a b]
           ∧ store_data stockmarket fxcurr from_date to_date s0 = (Raise e2, s2))
  ∧ (∀ s e s1,
       phase3_reaches stockmarket from_date to_date s0 s →
       forex_exchanges ∅ s = (Raise e, s1) →
       store_data stockmarket fxcurr from_date to_date s0 = (Raise e, s1)
       ∧ trace s1 = trace s ++ [forex_exchanges_request])
  ∧ (∀ s exchanges sE before exch after fxanagraphic_data s' e s1,
       phase3_reaches stockmarket from_date to_date s0 s →
       forex_exchanges ∅ s = (Ok exchanges, sE) →
       py_iter exchanges = Ok (before ++ exch :: after) →
       for_each phase3_exchange before [] sE = (Ok fxanagraphic_data, s') →
       fx_symbols exch ∅ s' = (Raise e, s1) →
       store_data stockmarket fxcurr from_date to_date s0 = (Raise e, s1)
       ∧ trace s1 = trace s' ++ [fx_symbols_request exch]).
Proof.
  split; [| split; [| split]].
  - intros. by eapply phase1_retry.
  - intros. by eapply phase2_retry.
  - intros. by eapply phase3_no_retry_exchanges.
  - intros. by eapply phase3_no_retry_symbols.
Qed.

(** ** Phase 2: from candle arrays to rows *)

Lemma mapM_total {A B} (f : A → result B) (l : list A) :
  (∀ x, x ∈ l → ∃ y, f x = Ok y) →
  ∃ ys, mapM f l = Ok ys ∧ Forall2 (λ x y, f x = Ok y) l ys.
Proof.
  induction l as [|x l IH]; intros H.
  - exists []. by split; [| constructor].
  - destruct (H x) as [y Hy]; [by left |].
    destruct IH as (ys & Hys & Hall); [intros; apply H; by right |].
    exists (y :: ys). split; [| by constructor].
    simpl. rewrite Hy. simpl. by rewrite Hys.
Qed.

Lemma cell_lookup fields key xs k x :
  assoc key fields = Some (JArr xs) →
  xs !! k = Some x →
  cell (JObj fields) key k = Ok x.
Proof. intros Hkey Hk. unfold cell. simpl. rewrite Hkey. simpl. by rewrite Hk. Qed.


(** ** Phase 4 *)

Lemma phase4_entry_skips a b f fxprices j s :
  fx_matches f j = Ok false →
  phase4_entry a b f fxprices j s = (Ok fxprices, s).
Proof.
  intros H. unfold phase4_entry, mbind, M_mbind, M_bind, liftR. by rewrite H.
Qed.





End Properties.

(** * Further properties of the client, the phases and the store *)

Section More.
Context `{NW : Network} `{PF : Platform}.

Implicit Types (s : state) (r : response) (v : json) (e : exn).

(** ** The client: queries, responses, calls *)

Lemma format_value_not_bool v b : format_value v ≠ JBool b.
Proof. by destruct v as [|[]| | | | |]. Qed.

(** X1. [_format_params] keeps the keys, turns the booleans into the strings
    true and false, leaves every other value as it is, delivers no boolean,
    and formatting twice is formatting once. *)
Theorem format_params_booleans (params : gmap string json) :
  dom (_format_params params) = dom params
  ∧ (∀ k b, params !! k = Some (JBool b) →
       _format_params params !! k = Some (JStr (if b then "true" else "false")))
  ∧ (∀ k v, params !! k = Some v → (∀ b, v ≠ JBool b) →
       _format_params params !! k = Some v)
  ∧ (∀ k b, _format_params params !! k ≠ Some (JBool b))
  ∧ _format_params (_format_params params) = _format_params params.
Proof.
  unfold _format_params. split; [apply dom_fmap_L |]. split; [| split; [| split]].
  - intros k b Hk. rewrite lookup_fmap, Hk. by destruct b.
  - intros k v Hk Hv. rewrite lookup_fmap, Hk. simpl. f_equal.
    destruct v as [|b| | | | |]; try done. by destruct (Hv b).
  - intros k b. rewrite lookup_fmap.
    destruct (params !! k) as [v|]; [| done]. simpl.
    intros [= H]. by apply format_value_not_bool in H.
  - rewrite <- map_fmap_compose. apply map_fmap_ext. intros k v _. simpl.
    by destruct v as [|[]| | | | |].
Qed.

(** X2. What a response with a non-success status raises, case by case of
    what the body decodes to; it never returns a value and never raises the
    request error. *)
Theorem handle_response_error_cases r :
  ok r = false →
  _handle_response r =
    match json_body r with
    | None =>
        Raise (FinnhubAPIException (status_code r)
                 (JStr ("JSON error message from Finnhub: " +:+ text r)))
    | Some (JObj fields) =>
        match assoc "error" fields with
        | Some message => Raise (FinnhubAPIException (status_code r) message)
        | None =>
            Raise (FinnhubAPIException (status_code r)
                     (JStr "Wrong json format from FinnhubAPI"))
        end
    | Some (JArr items) =>
        if existsb (λ x, py_eq_str x "error") items then Raise TypeError
        else Raise (FinnhubAPIException (status_code r)
                      (JStr "Wrong json format from FinnhubAPI"))
    | Some (JStr body) =>
        if contains "error" body then Raise TypeError
        else Raise (FinnhubAPIException (status_code r)
                      (JStr "Wrong json format from FinnhubAPI"))
    | Some _ => Raise TypeError
    end
  ∧ (∀ v, _handle_response r ≠ Ok v)
  ∧ (∀ message, _handle_response r ≠ Raise (FinnhubRequestException message)).
Proof.
  intros Hok.
  assert (_handle_response r = (FinnhubAPIException_new r ≫= Raise)) as Heq
    by (unfold _handle_response; by rewrite Hok).
  rewrite Heq. unfold FinnhubAPIException_new, response_json.
  destruct (json_body r) as [[| | | | body | items | fields]|]; simpl.
  1-4: by repeat split.
  - destruct (contains "error" body); by repeat split.
  - destruct (existsb _ items); by repeat split.
  - destruct (assoc "error" fields); by repeat split.
  - by repeat split.
Qed.

Lemma prefix_app needle post : String.prefix needle (needle +:+ post) = true.
Proof.
  induction needle as [|c needle IH]; simpl; [by destruct post |].
  destruct (ascii_dec c c); [done | congruence].
Qed.

Lemma contains_prefix needle hay :
  String.prefix needle hay = true → contains needle hay = true.
Proof. intros H. destruct hay; cbn [contains]; by rewrite H. Qed.

Lemma contains_infix needle pre post :
  contains needle (pre +:+ needle +:+ post) = true.
Proof.
  induction pre as [|c pre IH].
  - change ("" +:+ needle +:+ post) with (needle +:+ post).
    apply contains_prefix, prefix_app.
  - change (String c pre +:+ needle +:+ post) with (String c (pre +:+ needle +:+ post)).
    cbn [contains]. rewrite IH. by destruct (String.prefix _ _).
Qed.

(** X3. A success response whose content type has application/json anywhere
    inside it (before a charset parameter, say) returns the decoded body. *)
Theorem json_content_type_with_parameters r pre post v :
  ok r = true →
  headers_get "Content-Type" "" (headers r) = pre +:+ "application/json" +:+ post →
  json_body r = Some v →
  _handle_response r = Ok v.
Proof.
  intros Hok Htype Hbody. unfold _handle_response. rewrite Hok. simpl.
  rewrite Htype, contains_infix. unfold response_json. by rewrite Hbody.
Qed.

(** X4. A success response without a Content-Type header (under any
    capitalisation of the name) raises the request error with the raw text,
    whatever its body. *)
Theorem missing_content_type_is_invalid r :
  ok r = true →
  Forall (λ h, lower h.1 ≠ "content-type") (headers r) →
  _handle_response r = Raise (FinnhubRequestException ("Invalid Response: " +:+ text r)).
Proof.
  intros Hok Hnone.
  assert (headers_get "Content-Type" "" (headers r) = "") as Htype.
  { induction Hnone as [|[k v] rest Hk _ IH]; [done |].
    simpl. by rewrite bool_decide_eq_false_2. }
  unfold _handle_response. by rewrite Hok, Htype.
Qed.

Lemma bind_arguments_error names args (kws : gmap string json) e :
  bind_arguments names args kws = Raise e → e = TypeError.
Proof.
  unfold bind_arguments. destruct names as [|self names]; [by intros [= <-] |].
  destruct (_ <? _)%nat; [by intros [= <-] |].
  destruct (existsb _ _); [by intros [= <-] | discriminate].
Qed.

Lemma get_outcome path (params : gmap string json) s :
  ∃ answer w,
    session_call "get" (API_URL +:+ "/" +:+ path) (_format_params params)
      DEFAULT_TIMEOUT (net s) = (answer, w)
    ∧ _get path params s =
        (answer ≫= _handle_response,
         with_net w (log (EvRequest "get" (API_URL +:+ "/" +:+ path)
                            (_format_params params) DEFAULT_TIMEOUT) s)).
Proof.
  unfold _get, _request.
  destruct (session_call _ _ _ _ _) as [answer w]. by exists answer, w.
Qed.

(** X5. A call of a query method either fails to bind its arguments, which
    raises a TypeError and sends nothing, or sends exactly one GET request to
    the method's endpoint with the default timeout; an exception of the
    session is then the call's exception, and a response is handed to
    [_handle_response]. The database is not touched either way. *)
Theorem call_sends_one_request op args (kws : gmap string json) s :
  call op args kws s = (Raise TypeError, s)
  ∨ ∃ (params : gmap string json) answer w,
      session_call "get" (API_URL +:+ "/" +:+ endpoint op) (_format_params params)
        DEFAULT_TIMEOUT (net s) = (answer, w)
      ∧ call op args kws s =
          (answer ≫= _handle_response,
           with_net w (log (EvRequest "get" (API_URL +:+ "/" +:+ endpoint op)
                              (_format_params params) DEFAULT_TIMEOUT) s)).
Proof.
  unfold call.
  destruct (bind_arguments (declared op) args kws) as [[bound kwargs]|e] eqn:Hbind.
  - erewrite M_bind_Ok by reflexivity.
    unfold argument, mbind, M_mbind, M_bind, liftR.
    destruct op; repeat (destruct (bound !! _); [| by left]); right;
      unfold stock_candles, index_constituents, stock_profile, forex_exchanges,
        fx_symbols, fx_candles;
      match goal with
      | |- context [_get ?path ?params s] =>
          destruct (get_outcome path params s) as (answer & w & Hcall & ->);
          by exists params, answer, w
      end.
  - apply bind_arguments_error in Hbind as Hty. subst e. left.
    by apply M_bind_Raise.
Qed.

(** X6. Giving every parameter after self by keyword, as Phase 4 calls
    [fx_candles], is the same call as giving the values by position. *)
Theorem call_by_keyword_is_call_by_position op args s :
  length args = length (parameters op) →
  call op [] (list_to_map (zip (parameters op) args)) s = call op args ∅ s.
Proof.
  intros Hlen.
  destruct op; simpl in Hlen;
    repeat (destruct args as [|? args]; try discriminate Hlen); reflexivity.
Qed.

(** ** The persistence layer: what is written, and when *)

Lemma emptied_lookup (tables : gmap string (list row)) t :
  emptied tables !! t = if bool_decide (t ∈ table_names) then Some [] else tables !! t.
Proof.
  unfold emptied. generalize table_names. intros names.
  induction names as [|n names IH]; cbn [foldr].
  - case_bool_decide as Hin; [by apply elem_of_nil in Hin | done].
  - destruct (decide (n = t)) as [-> | Hne].
    + rewrite lookup_insert_eq.
      by rewrite bool_decide_eq_true_2 by (apply elem_of_cons; by left).
    + rewrite lookup_insert_ne, IH by done.
      destruct (bool_decide (t ∈ names)) eqn:Hin.
      * apply bool_decide_eq_true_1 in Hin.
        rewrite bool_decide_eq_true_2; [done | apply elem_of_cons; by right].
      * apply bool_decide_eq_false_1 in Hin.
        rewrite bool_decide_eq_false_2; [done |].
        intros [-> | ?]%elem_of_cons; done.
Qed.

Lemma create_table_lookup t d :
  ∃ d', sql_create_table_if_not_exists t d = Ok d'
        ∧ is_Some (live d' !! t)
        ∧ ∀ k, k ≠ t → live d' !! k = live d !! k.
Proof.
  unfold sql_create_table_if_not_exists.
  destruct (live d !! t) as [rows|] eqn:Ht.
  - exists d. by rewrite Ht.
  - eexists. split; [done |]. cbn [live]. split.
    + rewrite lookup_insert_eq. eauto.
    + intros k Hk. by rewrite lookup_insert_ne.
Qed.

Lemma create_tables_result s :
  create_tables s =
    (Ok (), with_db {| live := emptied (live (db s));
                       committed := emptied (live (db s));
                       in_transaction := false |} s).
Proof.
  destruct (create_table_lookup "anagraphic_table" (db s)) as (d1 & E1 & L1 & K1).
  destruct (create_table_lookup "stock_historical_data" d1) as (d2 & E2 & L2 & K2).
  destruct (create_table_lookup "fxanagraphic_data" d2) as (d3 & E3 & L3 & K3).
  destruct (create_table_lookup "fxhistorical_data" d3) as (d4 & E4 & L4 & K4).
  assert (is_Some (live d4 !! "fxanagraphic_data")) as L3' by (by rewrite K4).
  assert (is_Some (live d4 !! "stock_historical_data")) as L2'
    by (by rewrite K4, K3).
  assert (is_Some (live d4 !! "anagraphic_table")) as L1'
    by (by rewrite K4, K3, K2).
  unfold create_tables.
  erewrite M_bind_Ok by (apply modify_db_Ok; exact E1).
  erewrite M_bind_Ok by (apply modify_db_Ok; exact E2).
  erewrite M_bind_Ok by (apply modify_db_Ok; exact E3).
  erewrite M_bind_Ok by (apply modify_db_Ok; exact E4).
  erewrite M_bind_Ok
    by (apply modify_db_Ok; apply delete_from_live; exact L1').
  erewrite M_bind_Ok
    by (apply modify_db_Ok; apply delete_from_live; cbn [db with_db live];
        apply lookup_insert_is_Some'; right; exact L2').
  erewrite M_bind_Ok
    by (apply modify_db_Ok; apply delete_from_live; cbn [db with_db live];
        do 2 (apply lookup_insert_is_Some'; right); exact L3').
  erewrite M_bind_Ok
    by (apply modify_db_Ok; apply delete_from_live; cbn [db with_db live];
        do 3 (apply lookup_insert_is_Some'; right); exact L4).
  unfold modify_db, sql_commit. cbn [db with_db live committed in_transaction].
  assert (<["fxhistorical_data" := []]>
            (<["fxanagraphic_data" := []]>
               (<["stock_historical_data" := []]>
                  (<["anagraphic_table" := []]> (live d4))))
          = emptied (live (db s))) as ->; [| done].
  apply map_eq. intros k. rewrite emptied_lookup.
  destruct (bool_decide (k ∈ table_names)) eqn:Hin.
  - apply bool_decide_eq_true_1 in Hin. unfold table_names in Hin.
    repeat (apply elem_of_cons in Hin as [-> | Hin];
            [repeat (rewrite lookup_insert_ne by done); by rewrite lookup_insert_eq |]).
    by apply elem_of_nil in Hin.
  - apply bool_decide_eq_false_1 in Hin. unfold table_names in Hin.
    rewrite !not_elem_of_cons in Hin. destruct Hin as (N1 & N2 & N3 & N4 & _).
    rewrite !lookup_insert_ne by done.
    by rewrite K4, K3, K2, K1.
Qed.

(** X7. [create_tables] leaves every table other than its four as the
    connection saw it, and commits that view; and running it a second time
    changes nothing more. *)
Theorem create_tables_twice s :
  (∀ t, t ∉ table_names →
     live (db (create_tables s).2) !! t = live (db s) !! t
     ∧ committed (db (create_tables s).2) !! t = live (db s) !! t)
  ∧ create_tables (create_tables s).2 = create_tables s.
Proof.
  split.
  - intros t Ht. rewrite create_tables_result. cbn [snd db with_db live committed].
    by rewrite emptied_lookup, bool_decide_eq_false_2.
  - rewrite (create_tables_result s). cbn [snd].
    rewrite create_tables_result. cbn [db with_db live].
    assert (emptied (emptied (live (db s))) = emptied (live (db s))) as ->; [| done].
    apply map_eq. intros k. rewrite !emptied_lookup.
    by destruct (bool_decide (k ∈ table_names)).
Qed.

Lemma with_db_same s : with_db (db s) s = s.
Proof. by destruct s. Qed.

Lemma executemany_appends t arity rows s old :
  live (db s) !! t = Some old →
  Forall (insertable arity) rows →
  ∃ d, executemany t arity rows s = (Ok (), with_db d s)
       ∧ live d = <[t := old ++ rows]> (live (db s))
       ∧ committed d = committed (db s).
Proof.
  intros Hold Hrows. unfold executemany. rewrite Hold.
  revert s old Hold. induction Hrows as [|r rows [Hlen Hbind] _ IH]; intros s old Hold.
  - exists (db s). rewrite with_db_same. split; [done |]. split; [| done].
    by rewrite app_nil_r, insert_id.
  - simpl.
    set (d1 := {| live := <[t := old ++ [r]]> (live (db s));
                  committed := committed (db s);
                  in_transaction := true |}).
    assert (sql_insert t arity r (db s) = Ok d1) as Hins.
    { unfold sql_insert. rewrite Hold.
      apply Nat.eqb_eq in Hlen. by rewrite Hlen, Hbind. }
    erewrite M_bind_Ok by (apply modify_db_Ok; exact Hins).
    destruct (IH (with_db d1 s) (old ++ [r])) as (d & Hrun & Hlive & Hcommitted).
    { cbn [db with_db live d1]. apply lookup_insert_eq. }
    exists d. split; [exact Hrun |]. subst d1. cbn [db with_db live committed] in *.
    split; [| done].
    by rewrite Hlive, insert_insert_eq, <- app_assoc.
Qed.

Lemma insert_appends t arity rows s old :
  live (db s) !! t = Some old →
  Forall (insertable arity) rows →
  (_ ← executemany t arity rows; modify_db sql_commit) s =
    (Ok (), with_db {| live := <[t := old ++ rows]> (live (db s));
                       committed := <[t := old ++ rows]> (live (db s));
                       in_transaction := false |} s).
Proof.
  intros Hold Hrows.
  destruct (executemany_appends t arity rows s old Hold Hrows)
    as (d & Hrun & Hlive & _).
  erewrite M_bind_Ok by exact Hrun.
  unfold modify_db, sql_commit. cbn [db with_db]. by rewrite Hlive.
Qed.

(** X8. Each of the four bulk inserts, on an existing table and a batch of
    rows the driver accepts, appends the batch in order after the rows the
    table already had and commits; nothing else in the state changes: no
    other table, no request, no sleep. *)
Theorem inserts_append_and_commit s old rows :
  let appended t :=
    (Ok (), with_db {| live := <[t := old ++ rows]> (live (db s));
                       committed := <[t := old ++ rows]> (live (db s));
                       in_transaction := false |} s) in
  (live (db s) !! "anagraphic_table" = Some old →
   Forall (insertable 12) rows →
   insert_stock_anagraphic rows s = appended "anagraphic_table")
  ∧ (live (db s) !! "stock_historical_data" = Some old →
     Forall (insertable 7) rows →
     insert_stock_prices rows s = appended "stock_historical_data")
  ∧ (live (db s) !! "fxanagraphic_data" = Some old →
     Forall (insertable 3) rows →
     insert_fxanagraphic_data rows s = appended "fxanagraphic_data")
  ∧ (live (db s) !! "fxhistorical_data" = Some old →
     Forall (insertable 6) rows →
     insert_historical_data rows s = appended "fxhistorical_data").
Proof.
  intros appended. repeat split; intros Hold Hrows; by apply insert_appends.
Qed.

Lemma executemany_committed t arity rows s :
  committed (db (executemany t arity rows s).2) = committed (db s)
  ∧ net (executemany t arity rows s).2 = net s
  ∧ trace (executemany t arity rows s).2 = trace s.
Proof.
  unfold executemany. destruct (live (db s) !! t) as [old|]; [| done].
  clear old. revert s. induction rows as [|r rows IH]; intros s; [done |].
  simpl. unfold mbind, M_mbind, M_bind.
  destruct (modify_db (sql_insert t arity r) s) as [[[]|e] s1] eqn:Hstep;
    unfold modify_db in Hstep;
    destruct (sql_insert t arity r (db s)) as [d|e'] eqn:Hins;
    try discriminate Hstep.
  - injection Hstep as <-.
    destruct (IH (with_db d s)) as (-> & -> & ->). cbn [db with_db net trace].
    unfold sql_insert in Hins. destruct (live (db s) !! t); [| discriminate].
    destruct (negb _); [discriminate |]. destruct (negb _); [discriminate |].
    by injection Hins as <-.
  - by injection Hstep as _ <-.
Qed.

(** X9. When a bulk insert raises (table missing, a row with the wrong
    number of values, a value the driver cannot bind), the commit is not
    reached: the committed contents of the database are what they were, and
    no request or sleep happened. *)
Theorem failed_insert_commits_nothing t arity rows e s s' :
  (_ ← executemany t arity rows; modify_db sql_commit) s = (Raise e, s') →
  executemany t arity rows s = (Raise e, s')
  ∧ committed (db s') = committed (db s)
  ∧ net s' = net s ∧ trace s' = trace s.
Proof.
  intros H. unfold mbind, M_mbind, M_bind in H.
  pose proof (executemany_committed t arity rows s) as Hkeep.
  destruct (executemany t arity rows s) as [[[]|e'] s1]; [discriminate |].
  injection H as -> ->. by split.
Qed.

(** ** The phases: success cases and edges *)

Lemma mapM_Forall2 {A B} (f : A → result B) (l : list A) (ys : list B) :
  Forall2 (λ x y, f x = Ok y) l ys → mapM f l = Ok ys.
Proof.
  induction 1 as [|x y l ys Hx _ IH]; [done |].
  simpl. rewrite Hx. simpl. by rewrite IH.
Qed.

(** X10. A fetched profile that is an object holding all twelve fields adds
    exactly one row: the values of the twelve fields in column order,
    whatever else the object holds. *)
Theorem phase1_appends_complete_profile i stockprofile s fields s1 values :
  stock_profile i ∅ s = (Ok (JObj fields), s1) →
  Forall2 (λ k v, assoc k fields = Some v) profile_fields values →
  phase1_step stockprofile i s = (Ok (stockprofile ++ [values]), s1)
  ∧ length values = 12%nat.
Proof.
  intros Hfetch Hvalues. split; [| by apply Forall2_length in Hvalues].
  assert (profile_row (JObj fields) = Ok values) as Hrow.
  { apply mapM_Forall2. eapply Forall2_impl; [exact Hvalues |].
    intros k v Hk. simpl. by rewrite Hk. }
  unfold phase1_step. apply try_except_Ok.
  rewrite (store_profile_fetched _ _ _ _ _ Hfetch), Hrow.
  destruct fields as [|kv fields]; [| done].
  by inversion Hvalues.
Qed.

(** X11. A candle answer without the close array (the vendor's answer for a
    symbol with no data) raises a KeyError after the fetch has succeeded;
    this is outside the retry, so nothing is slept or fetched again and the
    run ends there. *)
Theorem phase2_missing_close_ends_run stockmarket fxcurr from_date to_date s0
    a b i prices s fields s1 :
  phase2_reaches stockmarket from_date to_date s0 a b i prices s →
  stock_candles_with_retry from_date to_date i s = (Ok (JObj fields), s1) →
  assoc "c" fields = None →
  phase2_step from_date to_date prices i s = (Raise (KeyError (JStr "c")), s1)
  ∧ store_data stockmarket fxcurr from_date to_date s0 = (Raise (KeyError (JStr "c")), s1).
Proof.
  intros Hreach Hfetch Hclose.
  assert (phase2_step from_date to_date prices i s = (Raise (KeyError (JStr "c")), s1))
    as Hstep.
  { unfold phase2_step. erewrite M_bind_Ok by exact Hfetch.
    apply M_bind_Raise. unfold liftR, price_rows. simpl. by rewrite Hclose. }
  split; [exact Hstep |]. by eapply run_aborts_in_phase2.
Qed.

Lemma cell_array fields key xs k :
  assoc key fields = Some (JArr xs) →
  cell (JObj fields) key k =
    match xs !! k with
    | Some x => Ok x
    | None => Raise IndexError
    end.
Proof. intros Hkey. unfold cell. simpl. by rewrite Hkey. Qed.

(** X12. The number of price rows follows the close array alone: when one of
    the other five arrays is shorter than the close array (and every time
    entry formats as a date), building the rows raises an IndexError. *)
Theorem price_rows_short_array i fields cs hs ls os ts vs :
  assoc "c" fields = Some (JArr cs) →
  assoc "h" fields = Some (JArr hs) →
  assoc "l" fields = Some (JArr ls) →
  assoc "o" fields = Some (JArr os) →
  assoc "t" fields = Some (JArr ts) →
  assoc "v" fields = Some (JArr vs) →
  Forall (λ t, ∃ d, time_label t = Ok d) ts →
  (length hs < length cs ∨ length ls < length cs ∨ length os < length cs
   ∨ length ts < length cs ∨ length vs < length cs)%nat →
  price_rows i (JObj fields) = Raise IndexError.
Proof.
  intros Hc Hh Hl Ho Ht Hv Hdates Hshort.
  assert (∀ k, price_row i (JObj fields) k =
               match cs !! k, hs !! k, ls !! k, os !! k, ts !! k, vs !! k with
               | Some c, Some h, Some l, Some o, Some t, Some v =>
                   d ← time_label t; Ok [i; c; h; l; o; JStr d; v]
               | _, _, _, _, _, _ => Raise IndexError
               end) as Hrow.
  { intros k. unfold price_row.
    rewrite (cell_array _ _ _ _ Hc), (cell_array _ _ _ _ Hh), (cell_array _ _ _ _ Hl),
      (cell_array _ _ _ _ Ho), (cell_array _ _ _ _ Ht), (cell_array _ _ _ _ Hv).
    destruct (cs !! k), (hs !! k), (ls !! k), (os !! k); simpl; try done.
    destruct (ts !! k) as [t|] eqn:Htk; simpl; [| done].
    destruct (proj1 (Forall_lookup _ _) Hdates _ _ Htk) as [d Hd].
    rewrite Hd. simpl. by destruct (vs !! k). }
  assert (∀ k e, price_row i (JObj fields) k = Raise e → e = IndexError) as Honly.
  { intros k e. rewrite Hrow.
    destruct (cs !! k), (hs !! k), (ls !! k), (os !! k); try (by intros [= <-]).
    destruct (ts !! k) as [t|] eqn:Htk; [| by intros [= <-]].
    destruct (vs !! k); [| by intros [= <-]].
    destruct (proj1 (Forall_lookup _ _) Hdates _ _ Htk) as [d Hd].
    by rewrite Hd. }
  destruct (mapM_first_failure (price_row i (JObj fields)) (seq 0 (length cs)))
    as (k & e & _ & Hk & Hrows).
  { set (m := Nat.min (length hs) (Nat.min (length ls) (Nat.min (length os)
               (Nat.min (length ts) (length vs))))).
    exists m. split; [apply elem_of_seq; lia |].
    rewrite Hrow.
    assert (hs !! m = None ∨ ls !! m = None ∨ os !! m = None
            ∨ ts !! m = None ∨ vs !! m = None) as Hnone.
    { rewrite !lookup_ge_None. lia. }
    destruct (cs !! m), (hs !! m), (ls !! m), (os !! m), (ts !! m), (vs !! m);
      try done; destruct Hnone as [H|[H|[H|[H|H]]]]; discriminate H. }
  unfold price_rows. simpl. rewrite Hc. simpl.
  rewrite Hrows. f_equal. by eapply Honly.
Qed.

(** X13. For a candle answer with close, high, low, open and time arrays of
    length N, every time entry of which formats as a date, Phase 4 builds
    exactly N rows of six values: the requested pair label, the k-th close,
    high, low and open, and the date of the k-th time. No volume is read:
    the answer need not have one. *)
Theorem fx_rows_of_candles f fields cs hs ls os ts ds (N : nat) :
  assoc "c" fields = Some (JArr cs) →
  assoc "h" fields = Some (JArr hs) →
  assoc "l" fields = Some (JArr ls) →
  assoc "o" fields = Some (JArr os) →
  assoc "t" fields = Some (JArr ts) →
  length cs = N → length hs = N → length ls = N → length os = N → length ts = N →
  Forall2 (λ t d, time_label t = Ok d) ts ds →
  ∃ rows,
    fx_price_rows f (JObj fields) = Ok rows
    ∧ length rows = N
    ∧ ∀ k, (k < N)%nat →
        ∃ c h l o d,
          cs !! k = Some c ∧ hs !! k = Some h ∧ ls !! k = Some l ∧ os !! k = Some o
          ∧ ds !! k = Some d
          ∧ rows !! k = Some [JStr f; c; h; l; o; JStr d].
Proof.
  intros Hc Hh Hl Ho Ht Lc Lh Ll Lo Lt Hdates.
  assert (∀ k, (k < N)%nat →
            ∃ c h l o d,
              cs !! k = Some c ∧ hs !! k = Some h ∧ ls !! k = Some l ∧ os !! k = Some o
              ∧ ds !! k = Some d
              ∧ fx_price_row f (JObj fields) k = Ok [JStr f; c; h; l; o; JStr d]) as Hrow.
  { intros k Hk.
    destruct (lookup_lt_is_Some_2 cs k) as [c Hck]; [lia |].
    destruct (lookup_lt_is_Some_2 hs k) as [h Hhk]; [lia |].
    destruct (lookup_lt_is_Some_2 ls k) as [l Hlk]; [lia |].
    destruct (lookup_lt_is_Some_2 os k) as [o Hok]; [lia |].
    destruct (lookup_lt_is_Some_2 ts k) as [t Htk]; [lia |].
    destruct (Forall2_lookup_l _ _ _ _ _ Hdates Htk) as (d & Hdk & Hlabel).
    exists c, h, l, o, d. repeat (split; [done |]).
    unfold fx_price_row.
    rewrite (cell_lookup _ _ _ _ _ Hc Hck), (cell_lookup _ _ _ _ _ Hh Hhk),
      (cell_lookup _ _ _ _ _ Hl Hlk), (cell_lookup _ _ _ _ _ Ho Hok),
      (cell_lookup _ _ _ _ _ Ht Htk).
    simpl. by rewrite Hlabel. }
  destruct (mapM_total (fx_price_row f (JObj fields)) (seq 0 N)) as (rows & Hrows & Hall).
  { intros k Hk%elem_of_seq.
    destruct (Hrow k) as (c & h & l & o & d & _ & _ & _ & _ & _ & H); [lia |]. eauto. }
  assert (length rows = N) as Hlen.
  { apply Forall2_length in Hall. by rewrite length_seq in Hall. }
  exists rows. split; [| split; [done |]].
  - unfold fx_price_rows. simpl. rewrite Hc. simpl. by rewrite Lc.
  - intros k Hk.
    destruct (Hrow k Hk) as (c & h & l & o & d & ? & ? & ? & ? & ? & Hk').
    exists c, h, l, o, d. repeat (split; [done |]).
    destruct (Forall2_lookup_l _ _ _ k k Hall) as (row & Hlook & Hdef).
    { by apply lookup_seq_lt. }
    rewrite Hk' in Hdef. injection Hdef as <-. exact Hlook.
Qed.

Lemma phase4_pair_skips a b f fxanagraphic_data fxprices s :
  Forall (λ j, fx_matches f j = Ok false) fxanagraphic_data →
  phase4_pair a b fxanagraphic_data fxprices f s = (Ok fxprices, s).
Proof.
  intros Hno. unfold phase4_pair. induction Hno as [|j data Hj _ IH]; [done |].
  simpl. by erewrite M_bind_Ok by (by apply phase4_entry_skips).
Qed.

(** X14. When no requested label matches any entry of the listing (an empty
    list of labels and an empty listing included), Phase 4 sends no request
    and yields an empty batch. *)
Theorem phase4_without_matches a b fxcurr fxanagraphic_data s :
  Forall (λ f, Forall (λ j, fx_matches f j = Ok false) fxanagraphic_data) fxcurr →
  phase4 a b fxcurr fxanagraphic_data s = (Ok [], s).
Proof.
  intros Hno. unfold phase4. generalize (@nil row) as fxprices.
  induction Hno as [|f rest Hf _ IH]; intros fxprices; [done |].
  simpl. by erewrite M_bind_Ok by (by apply phase4_pair_skips).
Qed.

(** ** What a run never does *)

Section Preserved.
Context (R : relation state) `{!PreOrder R}.

Lemma preserves_ret {A} (a : A) : preserves R (mret a : M A).
Proof. intros s. simpl. reflexivity. Qed.

Lemma preserves_liftR {A} (r : result A) : preserves R (liftR r).
Proof. intros s. simpl. reflexivity. Qed.

Lemma preserves_bind {A B} (m : M A) (f : A → M B) :
  preserves R m → (∀ a, preserves R (f a)) → preserves R (m ≫= f).
Proof.
  intros Hm Hf s. specialize (Hm s). unfold mbind, M_mbind, M_bind.
  destruct (m s) as [[a|e] s1]; [| exact Hm].
  simpl in Hm. etrans; [exact Hm | apply Hf].
Qed.

Lemma preserves_try_except {A} (body handler : M A) :
  preserves R body → preserves R handler → preserves R (try_except body handler).
Proof.
  intros Hbody Hhandler s. specialize (Hbody s). unfold try_except.
  destruct (body s) as [[a|e] s1]; [exact Hbody |].
  simpl in Hbody. etrans; [exact Hbody | apply Hhandler].
Qed.

Lemma preserves_for_each {A B} (body : B → A → M B) items acc :
  (∀ acc x, preserves R (body acc x)) → preserves R (for_each body items acc).
Proof.
  intros Hbody. revert acc. induction items as [|x items IH]; intros acc.
  - apply preserves_ret.
  - simpl. apply preserves_bind; [apply Hbody | intros acc'; apply IH].
Qed.

End Preserved.

#[local] Instance extends_by_preorder allowed : PreOrder (extends_by allowed).
Proof.
  split.
  - intros s. exists []. by rewrite app_nil_r.
  - intros s1 s2 s3 (evs1 & H1 & F1) (evs2 & H2 & F2).
    exists (evs1 ++ evs2). rewrite H2, H1, app_assoc. split; [done |].
    by apply Forall_app.
Qed.

#[local] Instance same_db_preorder : PreOrder same_db.
Proof. split; [done |]. intros s1 s2 s3 H1 H2. unfold same_db in *. congruence. Qed.

#[local] Instance same_session_preorder : PreOrder same_session.
Proof.
  split; [done |]. intros s1 s2 s3 [H1 H1'] [H2 H2']. unfold same_session.
  split; congruence.
Qed.

Lemma get_is_get path (params : gmap string json) :
  preserves (extends_by is_get) (_get path params)
  ∧ preserves same_db (_get path params).
Proof.
  split; intros s; destruct (request_state "get" path params s) as [Htrace Hdb].
  - eexists. split; [exact Htrace |]. constructor; [| constructor].
    exists path, (_format_params params). split; [done |].
    intros k b. unfold _format_params. rewrite lookup_fmap.
    destruct (params !! k) as [v|]; [| done]. simpl.
    intros [= H]. by destruct v as [|[]| | | | |].
  - exact Hdb.
Qed.

Lemma extends_by_mono (P Q : event → Prop) {A} (m : M A) :
  (∀ ev, P ev → Q ev) → preserves (extends_by P) m → preserves (extends_by Q) m.
Proof.
  intros HPQ Hm s. destruct (Hm s) as (evs & Htrace & Hall).
  exists evs. split; [done |]. eapply Forall_impl; eauto.
Qed.

Lemma sleep_80_preserved :
  preserves (extends_by is_get_or_sleep) (sleep 80) ∧ preserves same_db (sleep 80).
Proof.
  split; intros s; [| done].
  exists [EvSleep 80]. split; [done |]. constructor; [by right | constructor].
Qed.

Lemma modify_db_session f : preserves same_session (modify_db f).
Proof. intros s. unfold modify_db. by destruct (f (db s)). Qed.

Lemma executemany_session t arity rows : preserves same_session (executemany t arity rows).
Proof.
  intros s. unfold executemany. destruct (live (db s) !! t); [| done].
  apply (preserves_for_each same_session). intros [] r. apply modify_db_session.
Qed.

Lemma same_session_extends allowed {A} (m : M A) :
  preserves same_session m → preserves (extends_by allowed) m.
Proof.
  intros Hm s. destruct (Hm s) as [_ Htrace].
  exists []. by rewrite app_nil_r.
Qed.

Ltac preserved :=
  repeat first
    [ match goal with |- PreOrder _ => apply _ end
    | apply preserves_bind; [.. | intros ?]
    | apply preserves_for_each; [.. | intros ? ?]
    | apply preserves_try_except
    | apply preserves_ret
    | apply preserves_liftR
    | apply modify_db_session
    | apply executemany_session
    | apply same_session_extends; first [apply modify_db_session | apply executemany_session]
    | apply (proj2 (get_is_get _ _))
    | apply (proj2 sleep_80_preserved)
    | apply (proj1 (get_is_get _ _))
    | apply (extends_by_mono is_get is_get_or_sleep);
        [intros ? ?; by left | apply (proj1 (get_is_get _ _))]
    | apply (proj1 sleep_80_preserved)
    | match goal with |- preserves _ (if ?c then _ else _) => destruct c end
    | match goal with |- preserves _ (let '(_, _) := ?p in _) => destruct p end ].

Lemma phase1_same_db indx_const : preserves same_db (phase1 indx_const).
Proof. unfold phase1, phase1_step, store_profile, stock_profile. preserved. Qed.

Lemma phase2_same_db from_date to_date indx_const :
  preserves same_db (phase2 from_date to_date indx_const).
Proof.
  unfold phase2, phase2_step, stock_candles_with_retry, fetch_stock_candles,
    stock_candles. preserved.
Qed.

Lemma phase3_same_db : preserves same_db phase3.
Proof. unfold phase3, phase3_exchange, forex_exchanges, fx_symbols. preserved. Qed.

Lemma phase4_same_db a b fxcurr fxanagraphic_data :
  preserves same_db (phase4 a b fxcurr fxanagraphic_data).
Proof. unfold phase4, phase4_pair, phase4_entry, fx_candles. preserved. Qed.

(** X15. The fetching phases never write: whatever the vendor answers and
    however a phase ends, each of the four phases leaves the database
    exactly as it found it. *)
Theorem phases_never_write indx_const from_date to_date a b fxcurr fxanagraphic_data :
  preserves same_db (phase1 indx_const)
  ∧ preserves same_db (phase2 from_date to_date indx_const)
  ∧ preserves same_db phase3
  ∧ preserves same_db (phase4 a b fxcurr fxanagraphic_data).
Proof.
  split; [| split; [| split]].
  - apply phase1_same_db.
  - apply phase2_same_db.
  - apply phase3_same_db.
  - apply phase4_same_db.
Qed.

(** X16. The persistence layer never talks to the vendor: [create_tables]
    and the four bulk inserts send no request and never sleep, whatever
    their outcome. *)
Theorem persistence_never_fetches rows :
  preserves same_session create_tables
  ∧ preserves same_session (insert_stock_anagraphic rows)
  ∧ preserves same_session (insert_stock_prices rows)
  ∧ preserves same_session (insert_fxanagraphic_data rows)
  ∧ preserves same_session (insert_historical_data rows).
Proof.
  split; [| split; [| split; [| split]]].
  - unfold create_tables. preserved.
  - unfold insert_stock_anagraphic. preserved.
  - unfold insert_stock_prices. preserved.
  - unfold insert_fxanagraphic_data. preserved.
  - unfold insert_historical_data. preserved.
Qed.

(** X17. Everything a run does to the outside: every event of
    [store_data], however the run ends, is a GET request to the vendor with
    the default timeout of 120 and no boolean left in its query, or a sleep
    of 80; and Phases 3 and 4 never sleep. *)
Theorem store_data_events stockmarket fxcurr from_date to_date a b fxanagraphic_data :
  preserves (extends_by is_get_or_sleep) (store_data stockmarket fxcurr from_date to_date)
  ∧ preserves (extends_by is_get) phase3
  ∧ preserves (extends_by is_get) (phase4 a b fxcurr fxanagraphic_data).
Proof.
  split; [| split].
  - unfold store_data, phase1, phase1_step, store_profile, stock_profile,
      phase2, phase2_step, stock_candles_with_retry, fetch_stock_candles, stock_candles,
      phase3, phase3_exchange, forex_exchanges, fx_symbols,
      phase4, phase4_pair, phase4_entry, fx_candles, index_constituents.
    preserved.
  - unfold phase3, phase3_exchange, forex_exchanges, fx_symbols. preserved.
  - unfold phase4, phase4_pair, phase4_entry, fx_candles. preserved.
Qed.

(** ** Bounds on one step, and what a completed run has written *)

Lemma store_profile_state i stockprofile s :
  (store_profile i stockprofile s).2 = (stock_profile i ∅ s).2.
Proof.
  unfold store_profile, mbind, M_mbind, M_bind.
  destruct (stock_profile i ∅ s) as [[sp|e] s1]; [| done].
  destruct (py_eq_empty_dict sp); [done |].
  unfold liftR. by destruct (profile_row sp).
Qed.

(** X18. One constituent costs Phase 1 at most two requests and one sleep,
    whatever the vendor answers: the step sends the profile request once when
    the first attempt raises nothing, and otherwise sends it, sleeps 80 and
    sends it once more; nothing else is ever added. *)
Theorem phase1_step_at_most_one_retry i stockprofile s :
  (is_Ok (store_profile i stockprofile s).1 = true
   ∧ phase1_step stockprofile i s = store_profile i stockprofile s
   ∧ trace (phase1_step stockprofile i s).2 = trace s ++ [profile_request i])
  ∨ (is_Ok (store_profile i stockprofile s).1 = false
     ∧ trace (phase1_step stockprofile i s).2
       = trace s ++ [profile_request i; EvSleep 80; profile_request i]).
Proof.
  pose proof (store_profile_state i stockprofile s) as Hstate.
  pose proof (proj1 (stock_profile_state i s)) as Htrace.
  unfold phase1_step, try_except.
  destruct (store_profile i stockprofile s) as [[r|e] s1] eqn:Hfirst; simpl in Hstate.
  - left. split; [done |]. split; [done |]. simpl. by rewrite Hstate.
  - right. split; [done |]. rewrite sleep_then, store_profile_state.
    rewrite (proj1 (stock_profile_state i (log (EvSleep 80) s1))).
    simpl. rewrite Hstate, Htrace. by rewrite <- !app_assoc.
Qed.



Lemma index_constituents_same_db symbol : preserves same_db (index_constituents symbol ∅).
Proof. unfold index_constituents. preserved. Qed.


(** ** Before Phase 1, and Phase 3 *)

(** X20. A run ends before any profile is fetched, with nothing written,
    when a date does not parse (no request is sent at all) or when the index
    answer is an object without the constituents key (one request was
    sent). *)
Theorem run_ends_before_phase1 stockmarket fxcurr from_date to_date s0 :
  (∀ e, mktime_strptime from_date = Raise e →
        store_data stockmarket fxcurr from_date to_date s0 = (Raise e, s0))
  ∧ (∀ a e, mktime_strptime from_date = Ok a →
            mktime_strptime to_date = Raise e →
            store_data stockmarket fxcurr from_date to_date s0 = (Raise e, s0))
  ∧ (∀ a b fields s1,
       mktime_strptime from_date = Ok a →
       mktime_strptime to_date = Ok b →
       index_constituents (JStr ("^" +:+ stockmarket)) ∅ s0 = (Ok (JObj fields), s1) →
       assoc "constituents" fields = None →
       store_data stockmarket fxcurr from_date to_date s0
       = (Raise (KeyError (JStr "constituents")), s1)
       ∧ db s1 = db s0
       ∧ trace s1 = trace s0 ++ [EvRequest "get" (API_URL +:+ "/" +:+ "/index/constituents")
                                   (_format_params {[ "symbol" := JStr ("^" +:+ stockmarket) ]})
                                   DEFAULT_TIMEOUT]).
Proof.
  split; [| split].
  - intros e Hfrom. unfold store_data. apply M_bind_Raise. unfold liftR. by rewrite Hfrom.
  - intros a e Hfrom Hto. unfold store_data.
    erewrite M_bind_Ok by (unfold liftR; by rewrite Hfrom).
    apply M_bind_Raise. unfold liftR. by rewrite Hto.
  - intros a b fields s1 Hfrom Hto Hindex Hmissing. split; [| split].
    + unfold store_data.
      erewrite M_bind_Ok by (unfold liftR; by rewrite Hfrom).
      erewrite M_bind_Ok by (unfold liftR; by rewrite Hto).
      erewrite M_bind_Ok by exact Hindex.
      apply M_bind_Raise. unfold phase1. apply M_bind_Raise.
      unfold liftR, constituents. simpl. by rewrite Hmissing.
    + pose proof (index_constituents_same_db (JStr ("^" +:+ stockmarket)) s0) as Hdb.
      by rewrite Hindex in Hdb.
    + unfold index_constituents, _get, _merge_two_dicts in Hindex.
      rewrite (left_id_L ∅ (∪)) in Hindex.
      pose proof (proj1 (request_state "get" "/index/constituents"
                           {[ "symbol" := JStr ("^" +:+ stockmarket) ]} s0)) as Htrace.
      by rewrite Hindex in Htrace.
Qed.

(** X21. For one exchange whose symbol list is an array of objects that each
    hold a description, a displaySymbol and a symbol, Phase 3 appends one
    entry per object, in the vendor's order, made of these three values. *)
Theorem phase3_exchange_collects fxanagraphic_data exch s items s1 entries :
  fx_symbols exch ∅ s = (Ok (JArr items), s1) →
  Forall2 (λ item entry,
             ∃ fields, item = JObj fields
                       ∧ assoc "description" fields = Some (fx_description entry)
                       ∧ assoc "displaySymbol" fields = Some (fx_displaySymbol entry)
                       ∧ assoc "symbol" fields = Some (fx_symbol entry))
          items entries →
  phase3_exchange fxanagraphic_data exch s = (Ok (fxanagraphic_data ++ entries), s1).
Proof.
  intros Hfetch Hitems. unfold phase3_exchange.
  erewrite M_bind_Ok by exact Hfetch.
  erewrite M_bind_Ok by reflexivity.
  assert (mapM fx_entry_of items = Ok entries) as Hentries.
  { apply mapM_Forall2. eapply Forall2_impl; [exact Hitems |].
    intros item [d ds sy] (fields & -> & Hd & Hds & Hsy). simpl in *.
    unfold fx_entry_of. simpl. rewrite Hd. simpl. rewrite Hds. simpl. by rewrite Hsy. }
  by erewrite M_bind_Ok by (unfold liftR; by rewrite Hentries).
Qed.

End More.

(** * Concrete runs on the scripted platform *)

Section Runs.
Import Scripted.

Lemma handle_response_success_witness :
  ok ok_json = true ∧ ok ok_csv = true ∧ ok ok_html = true
  ∧ _handle_response ok_json = Ok (JArr [])
  ∧ _handle_response ok_csv = Ok (JStr "t,c")
  ∧ _handle_response ok_html = Raise (FinnhubRequestException "Invalid Response: <html/>").
Proof.
  do 3 (split; [reflexivity |]).
  split; [| split].
  - apply (proj1 (handle_response_success ok_json eq_refl)). reflexivity.
  - apply (proj1 (proj2 (handle_response_success ok_csv eq_refl))).
    + reflexivity.
    + left. reflexivity.
  - apply (proj2 (proj2 (handle_response_success ok_html eq_refl))); reflexivity.
Defined.

(** C8 as stated fails: with the symbol given by position and again by
    keyword, the call raises a TypeError and sends nothing, although an
    answer was ready; no request carries the keyword's value. *)
Lemma keyword_symbol_never_sent :
  let s0 := start [Ok ok_json] empty_db in
  let kws : gmap string json := {[ "symbol" := JStr "MSFT" ]} in
  "symbol" ∈ required_fields StockCandles
  ∧ call StockCandles apple_daily kws s0 = (Raise TypeError, s0)
  ∧ ¬ ∃ uri (query : gmap string json) timeout,
        EvRequest "get" uri query timeout ∈ trace (call StockCandles apple_daily kws s0).2
        ∧ query !! "symbol" = Some (JStr "MSFT").
Proof.
  intros s0 kws.
  assert (call StockCandles apple_daily kws s0 = (Raise TypeError, s0)) as Hcall
    by reflexivity.
  split; [by left |]. split; [exact Hcall |].
  intros (uri & query & timeout & Hin & _). rewrite Hcall in Hin.
  by apply elem_of_nil in Hin.
Qed.

Lemma keyword_arguments_in_query_witness :
  let s0 := start [Ok ok_json] empty_db in
  let kws : gmap string json := {[ "from" := JInt 5 ]} in
  length apple_daily = length (parameters StockCandles)
  ∧ (∀ k, k ∈ declared StockCandles → kws !! k = None)
  ∧ "from" ∈ required_fields StockCandles
  ∧ ∃ query : gmap string json,
      trace (call StockCandles apple_daily kws s0).2 =
        [EvRequest "get" "https://finnhub.io/api/v1//stock/candle" query 120]
      ∧ query !! "from" = Some (JInt 5).
Proof.
  intros s0 kws.
  assert (∀ k, k ∈ declared StockCandles → kws !! k = None) as Habs.
  { intros k Hk. unfold declared in Hk. simpl in Hk.
    repeat (apply elem_of_cons in Hk as [-> | Hk]; [reflexivity |]).
    by apply elem_of_nil in Hk. }
  split; [reflexivity |]. split; [exact Habs |].
  split; [do 2 right; by left |].
  destruct (proj2 (keyword_arguments_in_query StockCandles apple_daily kws s0 eq_refl) Habs)
    as (query & Htrace & Hquery).
  exists query. split; [exact Htrace |]. apply (Hquery "from" (JInt 5)). reflexivity.
Defined.

Lemma phase1_skips_empty_profile_witness :
  let s := start [empty_profile_answer] empty_db in
  let s1 := (stock_profile (JStr "BBB") ∅ s).2 in
  stock_profile (JStr "BBB") ∅ s = (Ok (JObj []), s1)
  ∧ phase1_step [] (JStr "BBB") s = (Ok [], s1)
  ∧ trace s1 = [profile_request (JStr "BBB")].
Proof.
  intros s s1.
  assert (stock_profile (JStr "BBB") ∅ s = (Ok (JObj []), s1)) as H by reflexivity.
  split; [exact H |]. split; [| reflexivity].
  apply (proj1 (phase1_skips_empty_profile (JStr "BBB") [] s s1 (or_introl H))).
Defined.

Lemma phase1_incomplete_profile_witness :
  let s0 := start [index_answer; partial_profile_answer; partial_profile_answer] empty_db in
  let s := (prelude "NDX" "10/01/2020" "10/01/2021" s0).2 in
  let s1 := (stock_profile (JStr "AAA") ∅ s).2 in
  let s2 := (stock_profile (JStr "AAA") ∅ (log (EvSleep 80) s1)).2 in
  phase1_reaches "NDX" "10/01/2020" "10/01/2021" s0 (JStr "AAA") [] s
  ∧ stock_profile (JStr "AAA") ∅ s = (Ok partial_profile, s1)
  ∧ (∃ k, k ∈ profile_fields
          ∧ store_data "NDX" ["EUR/USD"] "10/01/2020" "10/01/2021" s0
            = (Raise (KeyError (JStr k)), s2))
  ∧ trace s2 = [EvRequest "get" "https://finnhub.io/api/v1//index/constituents"
                  {[ "symbol" := JStr "^NDX" ]} 120;
                profile_request (JStr "AAA"); EvSleep 80; profile_request (JStr "AAA")].
Proof.
  intros s0 s s1 s2.
  assert (phase1_reaches "NDX" "10/01/2020" "10/01/2021" s0 (JStr "AAA") [] s) as Hreach.
  { exists 1578614400, 1610236800, index_body, s, [], []. repeat split; reflexivity. }
  assert (stock_profile (JStr "AAA") ∅ s = (Ok partial_profile, s1)) as Hfetch by reflexivity.
  split; [exact Hreach |]. split; [exact Hfetch |]. split; [| reflexivity].
  assert (∃ k, k ∈ profile_fields ∧ assoc k [("name", JStr "Acme"); ("ticker", JStr "AAA")] = None)
    as Hmissing by (exists "country"; split; [by left | reflexivity]).
  destruct (proj2 (phase1_incomplete_profile "NDX" ["EUR/USD"] "10/01/2020" "10/01/2021"
                     s0 (JStr "AAA") [] s partial_profile s1 Hreach Hfetch)
              _ eq_refl ltac:(discriminate) Hmissing) as (_ & _ & Hretry).
  destruct (Hretry _ s2 eq_refl ltac:(discriminate) Hmissing) as (k2 & Hk2 & _ & Hrun).
  exists k2. split; [exact Hk2 | exact Hrun].
Defined.

Lemma retry_once_in_phases_1_2_only_witness :
  let limit := FinnhubAPIException 429 (JStr "API limit reached.") in
  let lost := TransportError "read timed out" in
  (** Phase 1: the profile fetch fails twice. *)
  let p0 := start [index_answer; timed_out; limit_answer] empty_db in
  let p := (prelude "NDX" "10/01/2020" "10/01/2021" p0).2 in
  let p1 := (stock_profile (JStr "AAA") ∅ p).2 in
  let p2 := (stock_profile (JStr "AAA") ∅ (log (EvSleep 80) p1)).2 in
  (** Phase 2: the candle fetch fails twice. *)
  let q0 := opened [index_answer; empty_profile_answer; timed_out; limit_answer] in
  let q := (through_phase1 "NDX" "10/01/2020" "10/01/2021" q0).2 in
  let q1 := (stock_candles (JStr "AAA") (JStr "D") (JInt 1578614400) (JInt 1610236800) ∅ q).2 in
  let q2 := (stock_candles (JStr "AAA") (JStr "D") (JInt 1578614400) (JInt 1610236800) ∅
               (log (EvSleep 80) q1)).2 in
  (** Phase 3: the exchange list fails once. *)
  let r0 := opened [empty_index_answer; timed_out] in
  let r := (through_phase2 "NDX" "10/01/2020" "10/01/2021" r0).2 in
  let r1 := (forex_exchanges ∅ r).2 in
  (phase1_reaches "NDX" "10/01/2020" "10/01/2021" p0 (JStr "AAA") [] p
   ∧ stock_profile (JStr "AAA") ∅ p = (Raise lost, p1)
   ∧ stock_profile (JStr "AAA") ∅ (log (EvSleep 80) p1) = (Raise limit, p2)
   ∧ trace p2 = trace p ++ [profile_request (JStr "AAA"); EvSleep 80;
                            profile_request (JStr "AAA")]
   ∧ store_data "NDX" ["EUR/USD"] "10/01/2020" "10/01/2021" p0 = (Raise limit, p2))
  ∧ (phase2_reaches "NDX" "10/01/2020" "10/01/2021" q0 1578614400 1610236800
       (JStr "AAA") [] q
     ∧ stock_candles (JStr "AAA") (JStr "D") (JInt 1578614400) (JInt 1610236800) ∅ q
       = (Raise lost, q1)
     ∧ stock_candles (JStr "AAA") (JStr "D") (JInt 1578614400) (JInt 1610236800) ∅
         (log (EvSleep 80) q1) = (Raise limit, q2)
     ∧ trace q2 = trace q ++ [candles_request "/stock/candle" (JStr "AAA")
                                1578614400 1610236800;
                              EvSleep 80;
                              candles_request "/stock/candle" (JStr "AAA")
                                1578614400 1610236800]
     ∧ store_data "NDX" ["EUR/USD"] "10/01/2020" "10/01/2021" q0 = (Raise limit, q2))
  ∧ (phase3_reaches "NDX" "10/01/2020" "10/01/2021" r0 r
     ∧ forex_exchanges ∅ r = (Raise lost, r1)
     ∧ trace r1 = trace r ++ [forex_exchanges_request]
     ∧ store_data "NDX" ["EUR/USD"] "10/01/2020" "10/01/2021" r0 = (Raise lost, r1)).
Proof.
  intros limit lost p0 p p1 p2 q0 q q1 q2 r0 r r1.
  split; [| split].
  - assert (phase1_reaches "NDX" "10/01/2020" "10/01/2021" p0 (JStr "AAA") [] p) as Hreach.
    { exists 1578614400, 1610236800, index_body, p, [], [].
      (split; [| split]); vm_compute; reflexivity. }
    assert (stock_profile (JStr "AAA") ∅ p = (Raise lost, p1)) as Hfail
      by (vm_compute; reflexivity).
    assert (stock_profile (JStr "AAA") ∅ (log (EvSleep 80) p1) = (Raise limit, p2))
      as Hretry by (vm_compute; reflexivity).
    destruct (proj1 (retry_once_in_phases_1_2_only "NDX" ["EUR/USD"]
                       "10/01/2020" "10/01/2021" p0)
                _ _ _ _ _ Hreach Hfail) as (_ & _ & Hsecond).
    destruct (Hsecond _ _ Hretry) as [Htrace Hrun].
    exact (conj Hreach (conj Hfail (conj Hretry (conj Htrace Hrun)))).
  - assert (phase2_reaches "NDX" "10/01/2020" "10/01/2021" q0 1578614400 1610236800
              (JStr "AAA") [] q) as Hreach.
    { exists index_body, q, [], []. (split; [| split]); vm_compute; reflexivity. }
    assert (stock_candles (JStr "AAA") (JStr "D") (JInt 1578614400) (JInt 1610236800) ∅ q
            = (Raise lost, q1)) as Hfail by (vm_compute; reflexivity).
    assert (stock_candles (JStr "AAA") (JStr "D") (JInt 1578614400) (JInt 1610236800) ∅
              (log (EvSleep 80) q1) = (Raise limit, q2)) as Hretry
      by (vm_compute; reflexivity).
    destruct (proj1 (proj2 (retry_once_in_phases_1_2_only "NDX" ["EUR/USD"]
                              "10/01/2020" "10/01/2021" q0))
                _ _ _ _ _ _ _ Hreach Hfail) as (_ & _ & Hsecond).
    destruct (Hsecond _ _ Hretry) as [Htrace Hrun].
    exact (conj Hreach (conj Hfail (conj Hretry (conj Htrace Hrun)))).
  - assert (phase3_reaches "NDX" "10/01/2020" "10/01/2021" r0 r) as Hreach.
    { exists 1578614400, 1610236800. vm_compute. reflexivity. }
    assert (forex_exchanges ∅ r = (Raise lost, r1)) as Hfail by (vm_compute; reflexivity).
    destruct (proj1 (proj2 (proj2 (retry_once_in_phases_1_2_only "NDX" ["EUR/USD"]
                                     "10/01/2020" "10/01/2021" r0)))
                _ _ _ Hreach Hfail) as [Hrun Htrace].
    exact (conj Hreach (conj Hfail (conj Htrace Hrun))).
Defined.






Lemma handle_response_error_cases_witness :
  ok error_list_answer = false
  ∧ _handle_response error_list_answer
    = Raise (FinnhubAPIException 503 (JStr "Wrong json format from FinnhubAPI")).
Proof.
  split; [reflexivity |].
  exact (proj1 (handle_response_error_cases error_list_answer eq_refl)).
Defined.

Lemma json_content_type_with_parameters_witness :
  ok ok_json = true
  ∧ headers_get "Content-Type" "" (headers ok_json)
    = "" +:+ "application/json" +:+ "; charset=utf-8"
  ∧ json_body ok_json = Some (JArr [])
  ∧ _handle_response ok_json = Ok (JArr []).
Proof.
  do 3 (split; [reflexivity |]).
  exact (json_content_type_with_parameters ok_json "" "; charset=utf-8" (JArr [])
           eq_refl eq_refl eq_refl).
Defined.

Lemma missing_content_type_is_invalid_witness :
  ok ok_without_type = true
  ∧ Forall (λ h, lower h.1 ≠ "content-type") (headers ok_without_type)
  ∧ _handle_response ok_without_type
    = Raise (FinnhubRequestException "Invalid Response: {}").
Proof.
  assert (Forall (λ h : string * string, lower h.1 ≠ "content-type")
            (headers ok_without_type)) as Hnone
    by (repeat constructor; discriminate).
  split; [reflexivity |]. split; [exact Hnone |].
  exact (missing_content_type_is_invalid ok_without_type eq_refl Hnone).
Defined.

Lemma call_by_keyword_is_call_by_position_witness :
  let s := start [Ok ok_json] empty_db in
  length apple_daily = length (parameters FxCandles)
  ∧ call FxCandles []
      {[ "symbol" := JStr "AAPL"; "resolution" := JStr "D";
         "_from" := JInt 1; "to" := JInt 2 ]} s
    = call FxCandles apple_daily ∅ s.
Proof.
  intros s. split; [reflexivity |].
  exact (call_by_keyword_is_call_by_position FxCandles apple_daily s eq_refl).
Defined.

Lemma inserts_append_and_commit_witness :
  let s := opened [] in
  let rows := [fx_entry_row forex_eur; fx_entry_row forex_gbp] in
  live (db s) !! "fxanagraphic_data" = Some []
  ∧ Forall (insertable 3) rows
  ∧ live (db (insert_fxanagraphic_data rows s).2) !! "fxanagraphic_data" = Some rows
  ∧ committed (db (insert_fxanagraphic_data rows s).2) !! "fxanagraphic_data" = Some rows.
Proof.
  intros s rows.
  assert (live (db s) !! "fxanagraphic_data" = Some []) as Hold
    by (vm_compute; reflexivity).
  assert (Forall (insertable 3) rows) as Hrows by (repeat constructor).
  split; [exact Hold |]. split; [exact Hrows |].
  rewrite (proj1 (proj2 (proj2 (inserts_append_and_commit s [] rows))) Hold Hrows).
  cbn [snd db with_db live committed]. split; apply lookup_insert_eq.
Defined.

Lemma failed_insert_commits_nothing_witness :
  let s := opened [] in
  let rows := [[JStr "AAA"; JInt 1]] in
  insert_stock_prices rows s
  = (Raise (SqliteError "Incorrect number of bindings supplied"), s)
  ∧ committed (db (insert_stock_prices rows s).2) = committed (db s).
Proof.
  intros s rows.
  assert (insert_stock_prices rows s
          = (Raise (SqliteError "Incorrect number of bindings supplied"), s)) as Hfail
    by (vm_compute; reflexivity).
  split; [exact Hfail |].
  rewrite Hfail.
  exact (proj1 (proj2 (failed_insert_commits_nothing _ _ _ _ _ _ Hfail))).
Defined.

Lemma phase1_appends_complete_profile_witness :
  let s := start [full_profile_answer] empty_db in
  let s1 := (stock_profile (JStr "AAA") ∅ s).2 in
  stock_profile (JStr "AAA") ∅ s = (Ok (JObj full_profile_fields), s1)
  ∧ Forall2 (λ k v, assoc k full_profile_fields = Some v) profile_fields full_profile_row
  ∧ phase1_step [] (JStr "AAA") s = (Ok [full_profile_row], s1).
Proof.
  intros s s1.
  assert (stock_profile (JStr "AAA") ∅ s = (Ok (JObj full_profile_fields), s1)) as Hfetch
    by (vm_compute; reflexivity).
  assert (Forall2 (λ k v, assoc k full_profile_fields = Some v)
            profile_fields full_profile_row) as Hvalues
    by (repeat constructor).
  split; [exact Hfetch |]. split; [exact Hvalues |].
  exact (proj1 (phase1_appends_complete_profile (JStr "AAA") [] s full_profile_fields s1
                  full_profile_row Hfetch Hvalues)).
Defined.

Lemma phase2_missing_close_ends_run_witness :
  let s0 := opened [index_answer; empty_profile_answer; no_data_answer] in
  let s := (through_phase1 "NDX" "10/01/2020" "10/01/2021" s0).2 in
  let s1 := (stock_candles_with_retry "10/01/2020" "10/01/2021" (JStr "AAA") s).2 in
  phase2_reaches "NDX" "10/01/2020" "10/01/2021" s0 1578614400 1610236800
    (JStr "AAA") [] s
  ∧ stock_candles_with_retry "10/01/2020" "10/01/2021" (JStr "AAA") s
    = (Ok (JObj [("s", JStr "no_data")]), s1)
  ∧ store_data "NDX" ["EUR/USD"] "10/01/2020" "10/01/2021" s0
    = (Raise (KeyError (JStr "c")), s1)
  ∧ trace s1 = trace s ++ [candles_request "/stock/candle" (JStr "AAA")
                             1578614400 1610236800].
Proof.
  intros s0 s s1.
  assert (phase2_reaches "NDX" "10/01/2020" "10/01/2021" s0 1578614400 1610236800
            (JStr "AAA") [] s) as Hreach.
  { exists index_body, s, [], []. (split; [| split]); vm_compute; reflexivity. }
  assert (stock_candles_with_retry "10/01/2020" "10/01/2021" (JStr "AAA") s
          = (Ok (JObj [("s", JStr "no_data")]), s1)) as Hfetch
    by (vm_compute; reflexivity).
  split; [exact Hreach |]. split; [exact Hfetch |].
  split; [| vm_compute; reflexivity].
  exact (proj2 (phase2_missing_close_ends_run "NDX" ["EUR/USD"] "10/01/2020" "10/01/2021"
                  s0 _ _ _ _ _ _ _ Hreach Hfetch eq_refl)).
Defined.

Lemma price_rows_short_array_witness :
  Forall (λ t, ∃ d, time_label t = Ok d) [JInt 1578614400; JInt 1578700800]
  ∧ (length [JInt 1000] < length [JInt 150; JInt 152])%nat
  ∧ price_rows (JStr "AAA") (JObj short_volume_fields) = Raise IndexError.
Proof.
  assert (Forall (λ t, ∃ d, time_label t = Ok d) [JInt 1578614400; JInt 1578700800])
    as Hdates by (repeat constructor; eexists; reflexivity).
  split; [exact Hdates |]. split; [simpl; lia |].
  apply (price_rows_short_array (JStr "AAA") short_volume_fields
           [JInt 150; JInt 152] [JInt 151; JInt 153] [JInt 149; JInt 150]
           [JInt 150; JInt 151] [JInt 1578614400; JInt 1578700800] [JInt 1000]
           eq_refl eq_refl eq_refl eq_refl eq_refl eq_refl Hdates).
  do 4 right. simpl. lia.
Defined.

Lemma fx_rows_of_candles_witness :
  Forall2 (λ t d, time_label t = Ok d) [JInt 1578614400] ["2020-01-10"]
  ∧ ∃ rows, fx_price_rows "EUR/USD" (JObj fx_day_fields) = Ok rows
            ∧ length rows = 1%nat
            ∧ rows !! 0%nat = Some fx_day_row.
Proof.
  assert (Forall2 (λ t d, time_label t = Ok d) [JInt 1578614400] ["2020-01-10"])
    as Hdates by (repeat constructor; reflexivity).
  split; [exact Hdates |].
  destruct (fx_rows_of_candles "EUR/USD" fx_day_fields
              [JFloat (FFinite 9 (-3))] [JFloat (FFinite 5 (-2))] [JInt 1]
              [JFloat (FFinite 9 (-3))] [JInt 1578614400] ["2020-01-10"] 1
              eq_refl eq_refl eq_refl eq_refl eq_refl
              eq_refl eq_refl eq_refl eq_refl eq_refl Hdates)
    as (rows & Hrows & Hlen & Hk).
  exists rows. split; [exact Hrows |]. split; [exact Hlen |].
  destruct (Hk 0%nat ltac:(lia)) as (c & h & l & o & d & Hc & Hh & Hl & Ho & Hd & Hrow).
  injection Hc as <-. injection Hh as <-. injection Hl as <-.
  injection Ho as <-. injection Hd as <-. exact Hrow.
Defined.

Lemma phase4_without_matches_witness :
  let listing := [oanda_eur; forex_gbp] in
  let labels := ["EUR/USD"; "AUD/USD"] in
  let s := start [fx_day_answer] empty_db in
  Forall (λ f, Forall (λ j, fx_matches f j = Ok false) listing) labels
  ∧ phase4 1578614400 1610236800 labels listing s = (Ok [], s).
Proof.
  intros listing labels s.
  assert (Forall (λ f, Forall (λ j, fx_matches f j = Ok false) listing) labels) as Hno
    by (repeat constructor; reflexivity).
  split; [exact Hno |].
  exact (phase4_without_matches 1578614400 1610236800 labels listing s Hno).
Defined.


Lemma run_ends_before_phase1_witness :
  let s0 := opened [index_without_constituents] in
  let s1 := (index_constituents (JStr "^XXX") ∅ s0).2 in
  mktime_strptime "2020-01-10" = Raise ValueError
  ∧ store_data "XXX" [] "2020-01-10" "10/01/2021" s0 = (Raise ValueError, s0)
  ∧ index_constituents (JStr "^XXX") ∅ s0
    = (Ok (JObj [("error", JStr "Symbol not supported")]), s1)
  ∧ store_data "XXX" [] "10/01/2020" "10/01/2021" s0
    = (Raise (KeyError (JStr "constituents")), s1).
Proof.
  intros s0 s1.
  assert (index_constituents (JStr "^XXX") ∅ s0
          = (Ok (JObj [("error", JStr "Symbol not supported")]), s1)) as Hindex
    by (vm_compute; reflexivity).
  split; [reflexivity |]. split; [| split; [exact Hindex |]].
  - exact (proj1 (run_ends_before_phase1 "XXX" [] "2020-01-10" "10/01/2021" s0)
             ValueError eq_refl).
  - exact (proj1 (proj2 (proj2 (run_ends_before_phase1 "XXX" [] "10/01/2020" "10/01/2021" s0))
                    1578614400 1610236800 _ s1 eq_refl eq_refl Hindex eq_refl)).
Defined.

Lemma phase3_exchange_collects_witness :
  let s := start [symbols_answer] empty_db in
  let s1 := (fx_symbols (JStr "forex.com") ∅ s).2 in
  let items := [JObj [("description", JStr "FOREX.com EUR/USD");
                      ("displaySymbol", JStr "EUR/USD");
                      ("symbol", JStr "FOREX:401484347")]] in
  fx_symbols (JStr "forex.com") ∅ s = (Ok (JArr items), s1)
  ∧ phase3_exchange [oanda_eur] (JStr "forex.com") s = (Ok [oanda_eur; forex_eur], s1).
Proof.
  intros s s1 items.
  assert (fx_symbols (JStr "forex.com") ∅ s = (Ok (JArr items), s1)) as Hfetch
    by (vm_compute; reflexivity).
  split; [exact Hfetch |].
  apply (phase3_exchange_collects [oanda_eur] (JStr "forex.com") s items s1 [forex_eur] Hfetch).
  repeat constructor. eexists. repeat split; reflexivity.
Defined.

End Runs.
